(** * pg_ipm: the row-tampering executor hook of src/pg_ipm.c

    A shallow embedding of [ExecutePlan], [_PG_init], [_PG_fini] and
    [sentinel_ExecutorRun], and the properties of the row stream they
    produce.  Machine integers are [Z] with their wrap-around written out;
    the plan node is the list of tuples it will still return; the calls the
    module makes to its collaborators (plan node, tuple receiver,
    instrumentation, parallel mode) are recorded in a trace, oldest first. *)

From Stdlib Require Import ZArith Lia Bool.
From stdpp Require Import base list.

Local Open Scope Z_scope.

(** ** Machine integers *)

(** [uint64], [uint32]: reduction of a mathematical integer to the C type. *)
Definition uint64 (z : Z) : Z := z mod 2 ^ 64.
Definition uint32 (z : Z) : Z := z mod 2 ^ 32.

(** [int32]: two's complement reduction, the build of PostgreSQL and of its
    extensions wraps signed arithmetic (-fwrapv). *)
Definition int32 (z : Z) : Z := (z + 2 ^ 31) mod 2 ^ 32 - 2 ^ 31.

Definition INT32_MIN : Z := - 2 ^ 31.
Definition INT32_MAX : Z := 2 ^ 31 - 1.

(** A [Datum] is a 64-bit word. *)
Definition Datum := Z.

(** postgres.h: [DatumGetInt32(X)] is [(int32) X], [Int32GetDatum(X)] is
    [(Datum) X] (sign extension to the word). *)
Definition DatumGetInt32 (X : Datum) : Z := int32 X.
Definition Int32GetDatum (X : Z) : Datum := uint64 X.

(** ** What the module is built against *)

(** Constants and the assertion switch of the PostgreSQL headers; their
    values differ between server versions and builds. *)
Class Host := {
  EXEC_FLAG_EXPLAIN_ONLY : Z;
  EXEC_FLAG_BACKWARD : Z;
  ERROR : Z;
  FATAL : Z;
  INT_MAX : Z;
  (* c.h: without USE_ASSERT_CHECKING, Assert(c) expands to nothing *)
  USE_ASSERT_CHECKING : bool
}.

(** ** Data *)

Inductive CmdType :=
  | CMD_UNKNOWN | CMD_SELECT | CMD_UPDATE | CMD_INSERT | CMD_DELETE
  | CMD_UTILITY | CMD_NOTHING.

Definition CmdType_eqb (a b : CmdType) : bool :=
  match a, b with
  | CMD_UNKNOWN, CMD_UNKNOWN | CMD_SELECT, CMD_SELECT | CMD_UPDATE, CMD_UPDATE
  | CMD_INSERT, CMD_INSERT | CMD_DELETE, CMD_DELETE | CMD_UTILITY, CMD_UTILITY
  | CMD_NOTHING, CMD_NOTHING => true
  | _, _ => false
  end.

Inductive ScanDirection :=
  | BackwardScanDirection | NoMovementScanDirection | ForwardScanDirection.

Definition ScanDirectionIsNoMovement (direction : ScanDirection) : bool :=
  match direction with NoMovementScanDirection => true | _ => false end.

(** The fields of a tuple table slot the module touches: the Oid of the
    table the tuple comes from and the two attribute arrays. *)
Record TupleTableSlot := mkSlot {
  tts_tableOid : Z;
  tts_values : list Datum;
  tts_isnull : list bool
}.

(** What [slot_getattr(slot, attnum, &isnull)] of executor/tuptable.h does:
    for [1 <= attnum <= natts] it returns [tts_values[attnum-1]] and stores
    [tts_isnull[attnum-1]] in [isnull]; above [natts] the server raises
    "invalid attribute number" at level ERROR; [attnum <= 0] breaks the
    function's precondition and indexes the arrays out of bounds. *)
Inductive getattr_result :=
  | AttrValue (datum : Datum) (isnull : bool)
  | AttrInvalidNumber
  | AttrOutOfBounds.

Definition slot_getattr (slot : TupleTableSlot) (attnum : Z) : getattr_result :=
  if attnum <=? 0 then AttrOutOfBounds
  else match tts_values slot !! Z.to_nat (attnum - 1),
             tts_isnull slot !! Z.to_nat (attnum - 1) with
       | Some datum, Some isnull => AttrValue datum isnull
       | _, _ => AttrInvalidNumber
       end.

(** [slot->tts_values[i] = d] *)
Definition set_tts_value (slot : TupleTableSlot) (i : Z) (d : Datum)
  : TupleTableSlot :=
  mkSlot (tts_tableOid slot) (<[Z.to_nat i := d]> (tts_values slot))
         (tts_isnull slot).

(** The tuple receiver answers from the tuples it was handed before (oldest
    first) and the tuple at hand; [false] says that it takes no more. *)
Record DestReceiver := mkDest {
  receiveSlot : list TupleTableSlot -> TupleTableSlot -> bool
}.

Record EState := mkEState {
  es_direction : ScanDirection;
  es_processed : Z;
  es_top_eflags : Z;
  es_junkFilter : option (TupleTableSlot -> TupleTableSlot)
}.

Record PlannedStmt := mkPlannedStmt {
  hasReturning : bool;
  parallelModeNeeded : bool
}.

(** [planstate] is the list of tuples ExecProcNode returns, in order, before
    it returns NULL; [totaltime] tells whether the instrumentation pointer
    is set. *)
Record QueryDesc := mkQueryDesc {
  operation : CmdType;
  plannedstmt : PlannedStmt;
  dest : DestReceiver;
  estate : EState;
  planstate : list TupleTableSlot;
  totaltime : bool
}.

(** The functions an [ExecutorRun_hook] can point to. *)
Inductive ExecutorRun_hook_type :=
  | hook_sentinel_ExecutorRun
  | hook_of_other_module (id : nat).

(** The file's static variables. *)
Record Globals := mkGlobals {
  abort_statement_only : bool;
  relation_oid : Z;
  col_no : Z;
  elevel : Z;
  prev_ExecutorRun_hook : option ExecutorRun_hook_type
}.

(** Static storage starts zeroed. *)
Definition initial_globals : Globals := mkGlobals false 0 0 0 None.

(** Calls to collaborators. *)
Inductive event :=
  | EvInstrStartNode
  | EvInstrStopNode (nTuples : Z)
  | EvRStartup (operation : CmdType)
  | EvRShutdown
  | EvEnterParallelMode
  | EvExitParallelMode
  | EvExecProcNode (result : option TupleTableSlot)
  | EvExecShutdownNode
  | EvReceiveSlot (slot : TupleTableSlot) (more : bool)
  | EvCallHook (hook : ExecutorRun_hook_type)
  | EvStandardExecutorRun.

(** How a function ends: by returning, by a server error of some level that
    unwinds the statement, with undefined behaviour, or in a failed Assert. *)
Inductive outcome :=
  | Returned
  | Raised (level : Z)
  | Undefined
  | Trapped.

Record Result := mkResult {
  res_trace : list event;
  res_estate : EState;
  res_outcome : outcome
}.

(** ** Reading a trace *)

Definition sent_of (e : event) : option TupleTableSlot :=
  match e with EvReceiveSlot slot _ => Some slot | _ => None end.

(** The tuples handed to the receiver, oldest first. *)
Definition sent (trace : list event) : list TupleTableSlot :=
  omap sent_of trace.

Definition pulled_of (e : event) : option TupleTableSlot :=
  match e with EvExecProcNode (Some slot) => Some slot | _ => None end.

(** The tuples the plan node returned, oldest first. *)
Definition pulled (trace : list event) : list TupleTableSlot :=
  omap pulled_of trace.

Definition is_shutdown (e : event) : bool :=
  match e with EvExecShutdownNode => true | _ => false end.

(** Number of ExecShutdownNode calls. *)
Definition shutdowns (trace : list event) : nat :=
  length (List.filter is_shutdown trace).

Definition is_exhausted (e : event) : bool :=
  match e with EvExecProcNode None => true | _ => false end.

(** The plan node returned NULL at some point. *)
Definition exhausted (trace : list event) : bool := existsb is_exhausted trace.

Definition is_delegation (e : event) : bool :=
  match e with EvCallHook _ | EvStandardExecutorRun => true | _ => false end.

(** ** The code *)

Section Code.
Context {host : Host}.

(** [slot->tts_tableOid == relation_oid]: an Oid against an int, compared
    as unsigned. *)
Definition monitored (g : Globals) (slot : TupleTableSlot) : bool :=
  tts_tableOid slot =? uint32 (relation_oid g).

(** Lines 127-134 with [r] the value of [rand()]. *)
Definition tamper (g : Globals) (r : Z) (slot : TupleTableSlot)
  : outcome + TupleTableSlot :=
  match slot_getattr slot (col_no g) with
  | AttrValue datum isnull =>
      let col_val := DatumGetInt32 datum in
      let col_val := int32 (col_val + (Z.rem r (5 - (-5) + 1) + (-5))) in
      inr (set_tts_value slot (col_no g - 1) (Int32GetDatum col_val))
  | AttrInvalidNumber => inl (Raised ERROR)
  | AttrOutOfBounds => inl Undefined
  end.

(** Lines 115-116. *)
Definition filter_junk (junkFilter : option (TupleTableSlot -> TupleTableSlot))
    (slot : TupleTableSlot) : TupleTableSlot :=
  match junkFilter with
  | Some ExecFilterJunk => ExecFilterJunk slot
  | None => slot
  end.

(** [slot_getattr] finds the monitored column in the slot. *)
Definition readable (g : Globals) (slot : TupleTableSlot) : bool :=
  match slot_getattr slot (col_no g) with
  | AttrValue _ _ => true
  | _ => false
  end.

(** The slot is not monitored, or its monitored column can be read. *)
Definition tamperable (g : Globals) (slot : TupleTableSlot) : bool :=
  implb (monitored g slot) (readable g slot).

Record LoopResult := mkLoop {
  lr_trace : list event;
  lr_processed : Z;
  lr_outcome : outcome
}.

Section Loop.
Variable g : Globals.
(** [rnd i] is what the [i]-th call of [rand()] after [srand(time(NULL))]
    returns, counting from 0. *)
Variable rnd : nat -> Z.
Variable junkFilter : option (TupleTableSlot -> TupleTableSlot).
Variable operation : CmdType.
Variable sendTuples : bool.
Variable numberTuples : Z.
Variable dest : DestReceiver.

(** Lines 123-141: the slot as sent on, [es_processed] and the number of
    [rand()] calls made. *)
Definition count_tuple (slot : TupleTableSlot) (es_processed : Z)
    (rand_calls : nat) : outcome + TupleTableSlot * Z * nat :=
  if CmdType_eqb operation CMD_SELECT then
    if monitored g slot then
      match tamper g (rnd rand_calls) slot with
      | inl o => inl o
      | inr slot => inr (slot, uint64 (es_processed + 1), S rand_calls)
      end
    else inr (slot, uint64 (es_processed + 1), rand_calls)
  else inr (slot, es_processed, rand_calls).

(** The [for (;;)] of lines 86-167, one tuple of [planstate] per turn. *)
Fixpoint ExecutePlan_loop (planstate : list TupleTableSlot)
    (current_tuple_count es_processed : Z) (rand_calls : nat)
    (received : list TupleTableSlot) : LoopResult :=
  match planstate with
  | [] =>
      mkLoop [EvExecProcNode None; EvExecShutdownNode] es_processed Returned
  | slot0 :: planstate =>
      let slot := filter_junk junkFilter slot0 in
      match count_tuple slot es_processed rand_calls with
      | inl o => mkLoop [EvExecProcNode (Some slot0)] es_processed o
      | inr (slot, es_processed, rand_calls) =>
          let more :=
            if sendTuples then receiveSlot dest received slot else true in
          let calls :=
            EvExecProcNode (Some slot0)
              :: (if sendTuples then [EvReceiveSlot slot more] else []) in
          let received :=
            if sendTuples then received ++ [slot] else received in
          if negb more then mkLoop calls es_processed Returned
          else
            let current_tuple_count := uint64 (current_tuple_count + 1) in
            if negb (numberTuples =? 0)
               && (numberTuples =? current_tuple_count)
            then mkLoop calls es_processed Returned
            else
              let r := ExecutePlan_loop planstate current_tuple_count
                         es_processed rand_calls received in
              mkLoop (calls ++ lr_trace r) (lr_processed r) (lr_outcome r)
      end
  end.
End Loop.

Definition with_direction (estate : EState) (direction : ScanDirection)
  : EState :=
  mkEState direction (es_processed estate) (es_top_eflags estate)
           (es_junkFilter estate).

Definition with_processed (estate : EState) (n : Z) : EState :=
  mkEState (es_direction estate) n (es_top_eflags estate)
           (es_junkFilter estate).

(** Lines 39-178.  ResetPerTupleExprContext only frees memory and is left
    out of the trace; [rnd] stands for the generator as seeded on line 79,
    its first value being thrown away on line 81. *)
Definition ExecutePlan (g : Globals) (rnd : nat -> Z) (estate : EState)
    (planstate : list TupleTableSlot) (use_parallel_mode : bool)
    (operation : CmdType) (sendTuples : bool) (numberTuples : Z)
    (direction : ScanDirection) (dest : DestReceiver) : Result :=
  let current_tuple_count := 0 in
  let estate := with_direction estate direction in
  let use_parallel_mode :=
    if negb (numberTuples =? 0) then false else use_parallel_mode in
  let enter := if use_parallel_mode then [EvEnterParallelMode] else [] in
  (* srand(time(NULL)); rand(); *)
  let rand_calls := 1%nat in
  let r := ExecutePlan_loop g rnd (es_junkFilter estate) operation sendTuples
             numberTuples dest planstate current_tuple_count
             (es_processed estate) rand_calls [] in
  let estate := with_processed estate (lr_processed r) in
  match lr_outcome r with
  | Returned =>
      mkResult
        (enter ++ lr_trace r
           ++ (if negb (Z.land (es_top_eflags estate) EXEC_FLAG_BACKWARD =? 0)
               then [] else [EvExecShutdownNode])
           ++ (if use_parallel_mode then [EvExitParallelMode] else []))
        estate Returned
  | o => mkResult (enter ++ lr_trace r) estate o
  end.

(** guc.c for an int variable of a preloaded module: the configured value
    when there is one within the bounds (one outside is rejected with a
    warning), the boot value otherwise. *)
Definition DefineCustomIntVariable (configured : option Z)
    (bootValue minValue maxValue : Z) : Z :=
  match configured with
  | Some v => if (minValue <=? v) && (v <=? maxValue) then v else bootValue
  | None => bootValue
  end.

(** [_PG_init]: the module's globals and the server's [ExecutorRun_hook]
    before, and after. [conf_relation_oid] and [conf_column_no] are the
    entries of the configuration file, when present. *)
Definition _PG_init (conf_relation_oid conf_column_no : option Z)
    (g : Globals) (ExecutorRun_hook : option ExecutorRun_hook_type)
  : Globals * option ExecutorRun_hook_type :=
  let relation_oid := DefineCustomIntVariable conf_relation_oid 0 0 INT_MAX in
  let col_no := DefineCustomIntVariable conf_column_no 0 0 INT_MAX in
  let prev_ExecutorRun_hook := ExecutorRun_hook in
  let ExecutorRun_hook := Some hook_sentinel_ExecutorRun in
  let elevel := if abort_statement_only g then ERROR else FATAL in
  (mkGlobals (abort_statement_only g) relation_oid col_no elevel
             prev_ExecutorRun_hook,
   ExecutorRun_hook).

Definition _PG_fini (g : Globals)
    (ExecutorRun_hook : option ExecutorRun_hook_type)
  : Globals * option ExecutorRun_hook_type :=
  (g, prev_ExecutorRun_hook g).

(** Lines 239-306.  The descriptor and its [estate] are records, so the two
    non-NULL Asserts hold by construction; the switches of memory context
    are left out of the trace. *)
Definition sentinel_ExecutorRun (g : Globals) (rnd : nat -> Z)
    (queryDesc : QueryDesc) (direction : ScanDirection) (count : Z)
    (execute_once : bool) : Result :=
  let estate := estate queryDesc in
  if USE_ASSERT_CHECKING
     && negb (Z.land (es_top_eflags estate) EXEC_FLAG_EXPLAIN_ONLY =? 0)
  then mkResult [] estate Trapped
  else
    let start :=
      if totaltime queryDesc then [EvInstrStartNode] else [] in
    let operation := operation queryDesc in
    let dest := dest queryDesc in
    let estate := with_processed estate 0 in
    let sendTuples :=
      CmdType_eqb operation CMD_SELECT
      || hasReturning (plannedstmt queryDesc) in
    let startup := if sendTuples then [EvRStartup operation] else [] in
    let r :=
      if negb (ScanDirectionIsNoMovement direction)
      then ExecutePlan g rnd estate (planstate queryDesc)
             (parallelModeNeeded (plannedstmt queryDesc)) operation
             sendTuples count direction dest
      else mkResult [] estate Returned in
    match res_outcome r with
    | Returned =>
        mkResult
          (start ++ startup ++ res_trace r
             ++ (if sendTuples then [EvRShutdown] else [])
             ++ (if totaltime queryDesc
                 then [EvInstrStopNode (es_processed (res_estate r))]
                 else []))
          (res_estate r) Returned
    | o => mkResult (start ++ startup ++ res_trace r) (res_estate r) o
    end.
End Code.

Arguments uint64 : simpl never.
Arguments uint32 : simpl never.
Arguments int32 : simpl never.

(** ** Sample builds and inputs *)

(** A production build and an assertion-checking build of one server. *)
Definition pg_release : Host :=
  {| EXEC_FLAG_EXPLAIN_ONLY := 1; EXEC_FLAG_BACKWARD := 4; ERROR := 21;
     FATAL := 22; INT_MAX := 2147483647; USE_ASSERT_CHECKING := false |}.

Definition pg_cassert : Host :=
  {| EXEC_FLAG_EXPLAIN_ONLY := 1; EXEC_FLAG_BACKWARD := 4; ERROR := 21;
     FATAL := 22; INT_MAX := 2147483647; USE_ASSERT_CHECKING := true |}.

(** A two-column int4 tuple of the table [oid]. *)
Definition row (oid a b : Z) : TupleTableSlot :=
  mkSlot oid [Int32GetDatum a; Int32GetDatum b] [false; false].

(** The same with the second column null. *)
Definition row_null (oid a : Z) : TupleTableSlot :=
  mkSlot oid [Int32GetDatum a; 0] [false; true].

Definition accept_all : DestReceiver := mkDest (fun _ _ => true).

(** Takes the first tuple and declines the second. *)
Definition accept_one : DestReceiver :=
  mkDest (fun received _ => match received with [] => true | _ => false end).

(** rand() returning 6, 7, 8, ... *)
Definition rnd_from6 (i : nat) : Z := Z.of_nat i + 6.

(** Table 17, column 2, as the globals stand after [_PG_init]. *)
Definition g17 : Globals := mkGlobals false 17 2 22 None.

Definition plain_estate : EState :=
  mkEState ForwardScanDirection 0 0 None.

Definition sample_rows : list TupleTableSlot :=
  [row 17 1 100; row 42 3 300; row 17 2 200].

Definition select_desc (eflags : Z) (rows : list TupleTableSlot) : QueryDesc :=
  mkQueryDesc CMD_SELECT (mkPlannedStmt false false) accept_all
    (mkEState ForwardScanDirection 0 eflags None) rows true.

(** ** One turn of the loop *)

Section Turns.
Context {host : Host}.
Variable g : Globals.
Variable rnd : nat -> Z.
Variable junkFilter : option (TupleTableSlot -> TupleTableSlot).
Variable operation : CmdType.
Variable dest : DestReceiver.

Local Abbreviation loop := (ExecutePlan_loop g rnd junkFilter operation).
Local Abbreviation junk := (filter_junk junkFilter).

(** The five ways one turn of the loop can go. *)
Inductive turn (sendTuples : bool) (numberTuples : Z)
    (slot0 : TupleTableSlot) (planstate : list TupleTableSlot)
    (c es : Z) (rc : nat) (received : list TupleTableSlot)
  : LoopResult -> Prop :=
  | turn_fails o :
      count_tuple g rnd operation (junk slot0) es rc = inl o ->
      turn sendTuples numberTuples slot0 planstate c es rc received
        (mkLoop [EvExecProcNode (Some slot0)] es o)
  | turn_declined slot es' rc' :
      count_tuple g rnd operation (junk slot0) es rc = inr (slot, es', rc') ->
      sendTuples = true ->
      receiveSlot dest received slot = false ->
      turn sendTuples numberTuples slot0 planstate c es rc received
        (mkLoop [EvExecProcNode (Some slot0); EvReceiveSlot slot false]
                es' Returned)
  | turn_quota slot es' rc' :
      count_tuple g rnd operation (junk slot0) es rc = inr (slot, es', rc') ->
      (sendTuples = true -> receiveSlot dest received slot = true) ->
      numberTuples <> 0 ->
      numberTuples = uint64 (c + 1) ->
      turn sendTuples numberTuples slot0 planstate c es rc received
        (mkLoop (EvExecProcNode (Some slot0)
                   :: if sendTuples then [EvReceiveSlot slot true] else [])
                es' Returned)
  | turn_goes_on slot es' rc' :
      count_tuple g rnd operation (junk slot0) es rc = inr (slot, es', rc') ->
      (sendTuples = true -> receiveSlot dest received slot = true) ->
      (numberTuples = 0 \/ numberTuples <> uint64 (c + 1)) ->
      let r := loop sendTuples numberTuples dest planstate (uint64 (c + 1)) es'
                 rc' (if sendTuples then received ++ [slot] else received) in
      turn sendTuples numberTuples slot0 planstate c es rc received
        (mkLoop ((EvExecProcNode (Some slot0)
                   :: if sendTuples then [EvReceiveSlot slot true] else [])
                 ++ lr_trace r)
                (lr_processed r) (lr_outcome r)).

(** How a tuple handed to the receiver relates to the tuple it was made
    from: rewritten by [tamper] under some draw of [rand()] when it is a
    monitored tuple of a SELECT, untouched otherwise. *)
Definition forwarded_as (inp out : TupleTableSlot) : Prop :=
  if CmdType_eqb operation CMD_SELECT && monitored g inp
  then exists i, tamper g (rnd i) inp = inr out
  else out = inp.

End Turns.

(** ** More readers of a trace *)

Definition answer_of (e : event) : option bool :=
  match e with EvReceiveSlot _ more => Some more | _ => None end.

(** What the receiver answered, call by call. *)
Definition answers (trace : list event) : list bool := omap answer_of trace.

Definition is_enter_parallel (e : event) : bool :=
  match e with EvEnterParallelMode => true | _ => false end.

Definition is_exit_parallel (e : event) : bool :=
  match e with EvExitParallelMode => true | _ => false end.

Definition is_rStartup (e : event) : bool :=
  match e with EvRStartup _ => true | _ => false end.

Definition is_rShutdown (e : event) : bool :=
  match e with EvRShutdown => true | _ => false end.

Definition is_instr (e : event) : bool :=
  match e with EvInstrStartNode | EvInstrStopNode _ => true | _ => false end.

(** Calls made from inside the [for (;;)]: to the plan node and to
    [receiveSlot]. *)
Definition is_loop_call (e : event) : bool :=
  match e with
  | EvExecProcNode _ | EvExecShutdownNode | EvReceiveSlot _ _ => true
  | _ => false
  end.

(** How many events of a kind a trace holds. *)
Definition calls (kind : event -> bool) (trace : list event) : nat :=
  length (List.filter kind trace).

(** How many of the first [k] tuples of a plan are monitored. *)
Definition monitored_before (g : Globals)
    (junkFilter : option (TupleTableSlot -> TupleTableSlot)) (k : nat)
    (planstate : list TupleTableSlot) : nat :=
  length (List.filter (fun slot0 => monitored g (filter_junk junkFilter slot0))
            (take k planstate)).

Definition is_InstrStopNode (e : event) : bool :=
  match e with EvInstrStopNode _ => true | _ => false end.

(** Table 17 monitored at a column the sample tuples do not have. *)
Definition g17_col5 : Globals := mkGlobals false 17 5 22 None.

(** An INSERT without RETURNING. *)
Definition insert_desc (rows : list TupleTableSlot) : QueryDesc :=
  mkQueryDesc CMD_INSERT (mkPlannedStmt false false) accept_all
    (mkEState ForwardScanDirection 0 0 None) rows true.

(** ** Properties of a run *)


(** The first thing a run does is to call the hook saved in
    [prev_ExecutorRun_hook], or the standard executor when none was saved. *)
Definition delegates_first (g : Globals) (r : Result) : Prop :=
  head (res_trace r)
  = Some (match prev_ExecutorRun_hook g with
          | Some hook => EvCallHook hook
          | None => EvStandardExecutorRun
          end).

(** The run is refused: it does not return and no tuple is pulled or sent. *)
Definition refused (r : Result) : Prop :=
  res_outcome r <> Returned
  /\ pulled (res_trace r) = [] /\ sent (res_trace r) = [].

(** ** Arithmetic of the machine types *)

Lemma uint64_small z : 0 <= z < 2 ^ 64 -> uint64 z = z.
Proof. intros Hz. unfold uint64. now apply Z.mod_small. Qed.

Lemma uint64_add_l a b : uint64 (uint64 a + b) = uint64 (a + b).
Proof. unfold uint64. now rewrite Zplus_mod_idemp_l. Qed.

Lemma int32_small z : INT32_MIN <= z <= INT32_MAX -> int32 z = z.
Proof.
  unfold INT32_MIN, INT32_MAX, int32. intros Hz.
  rewrite Z.mod_small; lia.
Qed.

Lemma int32_range z : INT32_MIN <= int32 z <= INT32_MAX.
Proof.
  unfold INT32_MIN, INT32_MAX, int32.
  pose proof (Z.mod_pos_bound (z + 2 ^ 31) (2 ^ 32)). lia.
Qed.

Lemma int32_uint64 z : int32 (uint64 z) = int32 z.
Proof.
  unfold int32, uint64. f_equal.
  rewrite (Z.mod_eq z (2 ^ 64)) by lia.
  replace (z - 2 ^ 64 * (z / 2 ^ 64) + 2 ^ 31)
    with (z + 2 ^ 31 + (- 2 ^ 32 * (z / 2 ^ 64)) * 2 ^ 32) by lia.
  apply Z_mod_plus_full.
Qed.

Lemma DatumGetInt32_Int32GetDatum v :
  DatumGetInt32 (Int32GetDatum v) = int32 v.
Proof. apply int32_uint64. Qed.

Lemma noise_bounds r : 0 <= r -> -5 <= Z.rem r (5 - (-5) + 1) + (-5) <= 5.
Proof.
  intros Hr. change (5 - (-5) + 1) with 11.
  pose proof (Z.rem_bound_pos r 11 Hr). lia.
Qed.

(** ** Reading traces piecewise *)

Lemma sent_app t1 t2 : sent (t1 ++ t2) = sent t1 ++ sent t2.
Proof. apply omap_app. Qed.

Lemma pulled_app t1 t2 : pulled (t1 ++ t2) = pulled t1 ++ pulled t2.
Proof. apply omap_app. Qed.

Lemma shutdowns_app t1 t2 :
  shutdowns (t1 ++ t2) = (shutdowns t1 + shutdowns t2)%nat.
Proof. unfold shutdowns. now rewrite List.filter_app, length_app. Qed.

Lemma exhausted_app t1 t2 : exhausted (t1 ++ t2) = exhausted t1 || exhausted t2.
Proof. apply existsb_app. Qed.

Lemma sent_nil : sent [] = [].
Proof. reflexivity. Qed.

Lemma sent_pull x t : sent (EvExecProcNode x :: t) = sent t.
Proof. reflexivity. Qed.

Lemma sent_recv slot more t : sent (EvReceiveSlot slot more :: t) = slot :: sent t.
Proof. reflexivity. Qed.

Lemma sent_shutdown t : sent (EvExecShutdownNode :: t) = sent t.
Proof. reflexivity. Qed.

Lemma pulled_nil : pulled [] = [].
Proof. reflexivity. Qed.

Lemma pulled_pull slot t :
  pulled (EvExecProcNode (Some slot) :: t) = slot :: pulled t.
Proof. reflexivity. Qed.

Lemma pulled_null t : pulled (EvExecProcNode None :: t) = pulled t.
Proof. reflexivity. Qed.

Lemma pulled_recv slot more t : pulled (EvReceiveSlot slot more :: t) = pulled t.
Proof. reflexivity. Qed.

Lemma pulled_shutdown t : pulled (EvExecShutdownNode :: t) = pulled t.
Proof. reflexivity. Qed.

Lemma exhausted_pull slot t :
  exhausted (EvExecProcNode (Some slot) :: t) = exhausted t.
Proof. reflexivity. Qed.

Lemma exhausted_recv slot more t :
  exhausted (EvReceiveSlot slot more :: t) = exhausted t.
Proof. reflexivity. Qed.

Lemma exhausted_null t : exhausted (EvExecProcNode None :: t) = true.
Proof. reflexivity. Qed.

Create Rewrite HintDb trace.

#[local] Hint Rewrite sent_app sent_nil sent_pull sent_recv sent_shutdown
  pulled_app pulled_nil pulled_pull pulled_null pulled_recv pulled_shutdown
  exhausted_app exhausted_pull exhausted_recv exhausted_null
  : trace.

Arguments sent : simpl never.
Arguments pulled : simpl never.

(** ** The loop, case by case *)

Section LoopFacts.
Context {host : Host}.
Variable g : Globals.
Variable rnd : nat -> Z.
Variable junkFilter : option (TupleTableSlot -> TupleTableSlot).
Variable operation : CmdType.
Variable dest : DestReceiver.

Local Abbreviation loop := (ExecutePlan_loop g rnd junkFilter operation).
Local Abbreviation junk := (filter_junk junkFilter).

Lemma loop_turn sendTuples numberTuples slot0 planstate c es rc received :
  turn g rnd junkFilter operation dest sendTuples numberTuples slot0 planstate
    c es rc received
    (loop sendTuples numberTuples dest (slot0 :: planstate) c es rc received).
Proof.
  cbn [ExecutePlan_loop].
  destruct (count_tuple g rnd operation (junk slot0) es rc)
    as [o | [[slot es'] rc']] eqn:Hct.
  - now apply turn_fails.
  - destruct sendTuples.
    + destruct (receiveSlot dest received slot) eqn:Hmore; cbn [negb].
      * destruct (numberTuples =? 0) eqn:Hz; cbn [negb andb].
        -- apply Z.eqb_eq in Hz.
           eapply (turn_goes_on g rnd junkFilter operation dest true); eauto.
        -- apply Z.eqb_neq in Hz.
           destruct (numberTuples =? uint64 (c + 1)) eqn:Hq.
           ++ apply Z.eqb_eq in Hq. eapply (turn_quota g rnd junkFilter operation dest true); eauto.
           ++ apply Z.eqb_neq in Hq. eapply (turn_goes_on g rnd junkFilter operation dest true); eauto.
      * eapply turn_declined; eauto.
    + cbn [negb].
      destruct (numberTuples =? 0) eqn:Hz; cbn [negb andb].
      * apply Z.eqb_eq in Hz.
        eapply (turn_goes_on g rnd junkFilter operation dest false); eauto. discriminate.
      * apply Z.eqb_neq in Hz.
        destruct (numberTuples =? uint64 (c + 1)) eqn:Hq.
        -- apply Z.eqb_eq in Hq. eapply (turn_quota g rnd junkFilter operation dest false); eauto. discriminate.
        -- apply Z.eqb_neq in Hq. eapply (turn_goes_on g rnd junkFilter operation dest false); eauto.
           discriminate.
Qed.


Ltac turn_cases :=
  match goal with
  | |- context [ExecutePlan_loop ?g ?rnd ?j ?op ?st ?nt ?d (?slot0 :: ?pl)
                  ?c ?es ?rc ?recv] =>
      let r := fresh "r" in
      let T := fresh "T" in
      generalize (loop_turn st nt slot0 pl c es rc recv);
      generalize (ExecutePlan_loop g rnd j op st nt d (slot0 :: pl) c es rc recv);
      intros r T; destruct T;
      repeat match goal with x := ExecutePlan_loop _ _ _ _ _ _ _ _ _ _ _ _ |- _ =>
               subst x end;
      cbn [lr_trace lr_processed lr_outcome]
  end.

(** Without a receiver nothing is sent. *)
Lemma loop_nosend numberTuples planstate c es rc received :
  sent (lr_trace (loop false numberTuples dest planstate c es rc received)) = [].
Proof.
  revert c es rc received.
  induction planstate as [|slot0 planstate IH]; intros c es rc received.
  - reflexivity.
  - turn_cases; autorewrite with trace; try reflexivity.
    + discriminate.
    + apply IH.
Qed.

Lemma count_tuple_forwarded inp es rc out es' rc' :
  count_tuple g rnd operation inp es rc = inr (out, es', rc') ->
  forwarded_as g rnd operation inp out.
Proof.
  unfold count_tuple, forwarded_as.
  destruct (CmdType_eqb operation CMD_SELECT); cbn [andb].
  - destruct (monitored g inp).
    + destruct (tamper g (rnd rc) inp) as [o|slot] eqn:Ht; [discriminate|].
      intros [= -> _ _]. now exists rc.
    + now intros [= -> _ _].
  - now intros [= -> _ _].
Qed.

(** The [k]-th tuple sent is made from the [k]-th tuple pulled. *)
Lemma loop_sent_lookup sendTuples numberTuples planstate c es rc received k out :
  sent (lr_trace (loop sendTuples numberTuples dest planstate c es rc received))
    !! k = Some out ->
  exists slot0, planstate !! k = Some slot0
                /\ forwarded_as g rnd operation (junk slot0) out.
Proof.
  destruct sendTuples; [|now rewrite loop_nosend].
  revert c es rc received k.
  induction planstate as [|slot0 planstate IH]; intros c es rc received k.
  - discriminate.
  - turn_cases; autorewrite with trace.
    + discriminate.
    + destruct k as [|k]; [|discriminate].
      intros [= <-]. exists slot0. eauto using count_tuple_forwarded.
    + destruct k as [|k]; [|discriminate].
      intros [= <-]. exists slot0. eauto using count_tuple_forwarded.
    + destruct k as [|k].
      * intros [= <-]. exists slot0. eauto using count_tuple_forwarded.
      * apply IH.
Qed.

Lemma count_tuple_select inp es rc out es' rc' :
  operation = CMD_SELECT ->
  count_tuple g rnd operation inp es rc = inr (out, es', rc') ->
  es' = uint64 (es + 1).
Proof.
  intros ->. unfold count_tuple. cbn [CmdType_eqb].
  destruct (monitored g inp).
  - destruct (tamper g (rnd rc) inp); [discriminate|]. now intros [= _ <- _].
  - now intros [= _ <- _].
Qed.

(** In a SELECT with a receiver the counter advances once per tuple sent. *)
Lemma loop_processed numberTuples planstate c es rc received :
  operation = CMD_SELECT ->
  0 <= es < 2 ^ 64 ->
  let r := loop true numberTuples dest planstate c es rc received in
  lr_processed r = uint64 (es + Z.of_nat (length (sent (lr_trace r)))).
Proof.
  intros Hop. cbn zeta. revert c es rc received.
  induction planstate as [|slot0 planstate IH]; intros c es rc received Hes.
  - cbn. rewrite Z.add_0_r. symmetry. now apply uint64_small.
  - turn_cases; autorewrite with trace; cbn [length].
    + rewrite Z.add_0_r. symmetry. now apply uint64_small.
    + now apply count_tuple_select in H.
    + now apply count_tuple_select in H.
    + apply count_tuple_select in H; [|assumption]. subst es'.
      rewrite IH by (unfold uint64; apply Z.mod_pos_bound; lia).
      rewrite uint64_add_l. f_equal. cbn [app length]. lia.
Qed.

Lemma shutdowns_loop sendTuples numberTuples planstate c es rc received :
  let r := loop sendTuples numberTuples dest planstate c es rc received in
  shutdowns (lr_trace r) = if exhausted (lr_trace r) then 1%nat else 0%nat.
Proof.
  cbn zeta. revert c es rc received.
  induction planstate as [|slot0 planstate IH]; intros c es rc received.
  - reflexivity.
  - turn_cases; try reflexivity.
    + now destruct sendTuples.
    + rewrite shutdowns_app, exhausted_app, IH.
      now destruct sendTuples.
Qed.

(** The loop calls neither a saved hook nor the standard executor. *)
Lemma loop_no_delegation sendTuples numberTuples planstate c es rc received :
  Forall (fun e => is_delegation e = false)
    (lr_trace (loop sendTuples numberTuples dest planstate c es rc received)).
Proof.
  revert c es rc received.
  induction planstate as [|slot0 planstate IH]; intros c es rc received.
  - now repeat constructor.
  - turn_cases; try (now repeat constructor).
    + destruct sendTuples; now repeat constructor.
    + apply Forall_app. split; [|apply IH].
      destruct sendTuples; now repeat constructor.
Qed.

Ltac same_tuple :=
  match goal with
  | H1 : ?x = inl _, H2 : ?x = inr _ |- _ => congruence
  | H1 : ?x = inr _, H2 : ?x = inr _ |- _ =>
      rewrite H1 in H2; injection H2 as <- <- <-
  | H1 : ?x = false, H2 : true = true -> ?x = true |- _ =>
      specialize (H2 eq_refl); congruence
  end.

(** A quota run against the unbounded run from the same state. *)
Lemma loop_quota q planstate c c0 es rc received :
  0 <= c < q -> q < 2 ^ 64 ->
  let r0 := loop true 0 dest planstate c0 es rc received in
  let rq := loop true q dest planstate c es rc received in
  (Z.to_nat (q - c) <= length (sent (lr_trace r0)))%nat ->
  length (sent (lr_trace rq)) = Z.to_nat (q - c)
  /\ length (pulled (lr_trace rq)) = Z.to_nat (q - c)
  /\ exhausted (lr_trace rq) = false
  /\ lr_outcome rq = Returned.
Proof.
  cbn zeta. revert c c0 es rc received.
  induction planstate as [|slot0 planstate IH];
    intros c c0 es rc received Hc Hq Hlen.
  - revert Hlen. cbn [ExecutePlan_loop lr_trace].
    autorewrite with trace. cbn [length]. lia.
  - turn_cases; revert Hlen; turn_cases; repeat same_tuple;
      autorewrite with trace; cbn [app length]; intros Hlen;
      repeat match goal with
             | Ht : true = true -> _ |- _ => specialize (Ht eq_refl)
             end;
      try congruence; try (exfalso; lia);
      rewrite ?(uint64_small (c + 1)) in * by lia;
      try (repeat split; try reflexivity; lia).
    destruct (IH (c + 1) (uint64 (c0 + 1)) es' rc' (received ++ [slot]))
      as (Hs & Hp & He & Ho); [lia | lia | lia |].
    rewrite Hs, Hp, Ho.
    rewrite He. repeat split; lia.
Qed.

Lemma count_tuple_unmonitored inp es rc :
  monitored g inp = false ->
  count_tuple g rnd operation inp es rc
  = inr (inp, if CmdType_eqb operation CMD_SELECT then uint64 (es + 1) else es,
         rc).
Proof. unfold count_tuple. intros ->. now destruct (CmdType_eqb _ _). Qed.

Lemma count_tuple_tamperable inp es rc :
  tamperable g inp = true ->
  exists out es' rc', count_tuple g rnd operation inp es rc = inr (out, es', rc').
Proof.
  unfold tamperable, readable, count_tuple, tamper. intros Hr.
  destruct (CmdType_eqb operation CMD_SELECT); [|eauto].
  destruct (monitored g inp); [|eauto]. cbn [implb] in Hr.
  destruct (slot_getattr inp (col_no g)); try discriminate. eauto.
Qed.

(** With no monitored tuple in the plan the tuples go through as they are. *)
Lemma loop_passthrough sendTuples numberTuples planstate c es rc received :
  forallb (fun slot0 => negb (monitored g (junk slot0))) planstate = true ->
  let r := loop sendTuples numberTuples dest planstate c es rc received in
  lr_outcome r = Returned
  /\ sent (lr_trace r) `prefix_of` map junk planstate.
Proof.
  cbn zeta. revert c es rc received.
  induction planstate as [|slot0 planstate IH];
    intros c es rc received Hall.
  - split; [reflexivity|]. now exists [].
  - cbn [forallb] in Hall. apply andb_true_iff in Hall as [Hm Hall].
    apply negb_true_iff in Hm.
    pose proof (count_tuple_unmonitored (junk slot0) es rc Hm) as Hct.
    turn_cases; try same_tuple; autorewrite with trace; cbn [app map].
    + split; [reflexivity|]. apply prefix_cons, prefix_nil.
    + split; [reflexivity|].
      destruct sendTuples; autorewrite with trace.
      * apply prefix_cons, prefix_nil.
      * apply prefix_nil.
    + edestruct IH as [Ho Hp]; [exact Hall|]. split; [exact Ho|].
      destruct sendTuples; autorewrite with trace; cbn [app].
      * apply prefix_cons, Hp.
      * rewrite loop_nosend. apply prefix_nil.
Qed.

(** With the monitored column readable in every monitored tuple, a receiver
    that never declines and no quota, the loop ends on the exhausted plan. *)
Lemma loop_runs_through planstate c es rc received :
  forallb (fun slot0 => tamperable g (junk slot0)) planstate = true ->
  (forall h slot, receiveSlot dest h slot = true) ->
  let r := loop true 0 dest planstate c es rc received in
  lr_outcome r = Returned
  /\ pulled (lr_trace r) = planstate
  /\ length (sent (lr_trace r)) = length planstate
  /\ exhausted (lr_trace r) = true.
Proof.
  intros Hall Hacc. cbn zeta. revert c es rc received Hall.
  induction planstate as [|slot0 planstate IH];
    intros c es rc received Hall.
  - now cbn.
  - cbn [forallb] in Hall. apply andb_true_iff in Hall as [Hr Hall].
    destruct (count_tuple_tamperable (junk slot0) es rc Hr)
      as (out & es1 & rc1 & Hct).
    turn_cases; try same_tuple; autorewrite with trace; cbn [app length].
    + rewrite Hacc in *. discriminate.
    + congruence.
    + edestruct IH as (Ho & Hp & Hs & He); [exact Hall|].
      rewrite Ho, Hp, Hs, He. auto.
Qed.


(** With no monitored tuple in the plan every tuple pulled is handed to the
    receiver as it is. *)
Lemma loop_passthrough_sent numberTuples planstate c es rc received :
  forallb (fun slot0 => negb (monitored g (junk slot0))) planstate = true ->
  let r := loop true numberTuples dest planstate c es rc received in
  sent (lr_trace r) = map junk (pulled (lr_trace r)).
Proof.
  cbn zeta. revert c es rc received.
  induction planstate as [|slot0 planstate IH];
    intros c es rc received Hall.
  - reflexivity.
  - cbn [forallb] in Hall. apply andb_true_iff in Hall as [Hm Hall].
    apply negb_true_iff in Hm.
    pose proof (count_tuple_unmonitored (junk slot0) es rc Hm) as Hct.
    turn_cases; try same_tuple; autorewrite with trace; cbn [app map];
      try reflexivity.
    f_equal. now apply IH.
Qed.

Lemma unmonitored_tamperable planstate :
  forallb (fun slot0 => negb (monitored g (junk slot0))) planstate = true ->
  forallb (fun slot0 => tamperable g (junk slot0)) planstate = true.
Proof.
  intros Hall. apply List.forallb_forall. intros slot0 Hin.
  rewrite List.forallb_forall in Hall. specialize (Hall slot0 Hin).
  apply negb_true_iff in Hall. unfold tamperable. now rewrite Hall.
Qed.

End LoopFacts.

(** ** The loop reads two of the globals *)




(** ** ExecutePlan around its loop *)

Section PlanFacts.
Context {host : Host}.
Variable g : Globals.
Variable rnd : nat -> Z.
Variable estate : EState.
Variable planstate : list TupleTableSlot.
Variable use_parallel_mode : bool.
Variable operation : CmdType.
Variable sendTuples : bool.
Variable numberTuples : Z.
Variable direction : ScanDirection.
Variable dest : DestReceiver.

Local Abbreviation plan :=
  (ExecutePlan g rnd estate planstate use_parallel_mode operation sendTuples
     numberTuples direction dest).
Local Abbreviation body :=
  (ExecutePlan_loop g rnd (es_junkFilter estate) operation sendTuples
     numberTuples dest planstate 0 (es_processed estate) 1 []).

Lemma ExecutePlan_outcome : res_outcome plan = lr_outcome body.
Proof. unfold ExecutePlan. cbn. now destruct (lr_outcome body). Qed.

Lemma ExecutePlan_processed :
  es_processed (res_estate plan) = lr_processed body.
Proof. unfold ExecutePlan. cbn. now destruct (lr_outcome body). Qed.

Lemma ExecutePlan_sent : sent (res_trace plan) = sent (lr_trace body).
Proof.
  unfold ExecutePlan. cbn.
  destruct (lr_outcome body); cbn [res_trace]; rewrite !sent_app;
    repeat match goal with |- context [if ?b then _ else _] => destruct b end;
    cbn [negb]; autorewrite with trace; now rewrite ?app_nil_r.
Qed.

Lemma ExecutePlan_pulled : pulled (res_trace plan) = pulled (lr_trace body).
Proof.
  unfold ExecutePlan. cbn.
  destruct (lr_outcome body); cbn [res_trace]; rewrite !pulled_app;
    repeat match goal with |- context [if ?b then _ else _] => destruct b end;
    cbn [negb]; autorewrite with trace; now rewrite ?app_nil_r.
Qed.

Lemma ExecutePlan_exhausted :
  exhausted (res_trace plan) = exhausted (lr_trace body).
Proof.
  unfold ExecutePlan. cbn.
  destruct (lr_outcome body); cbn [res_trace]; rewrite !exhausted_app;
    repeat match goal with |- context [if ?b then _ else _] => destruct b end;
    cbn; now rewrite ?orb_false_r.
Qed.

Lemma ExecutePlan_shutdowns :
  res_outcome plan = Returned ->
  shutdowns (res_trace plan)
  = (shutdowns (lr_trace body)
     + if (Z.land (es_top_eflags estate) EXEC_FLAG_BACKWARD =? 0)%Z
       then 1 else 0)%nat.
Proof.
  rewrite ExecutePlan_outcome. unfold ExecutePlan. cbn. intros ->.
  cbn [res_trace]. rewrite !shutdowns_app.
  destruct (Z.land (es_top_eflags estate) EXEC_FLAG_BACKWARD =? 0);
    cbn [negb];
    repeat match goal with |- context [if ?b then _ else _] => destruct b end;
    cbn; lia.
Qed.

Lemma ExecutePlan_no_delegation :
  Forall (fun e => is_delegation e = false) (res_trace plan).
Proof.
  unfold ExecutePlan. cbn.
  pose proof (loop_no_delegation g rnd (es_junkFilter estate) operation dest
                sendTuples numberTuples planstate 0 (es_processed estate) 1 [])
    as Hl.
  destruct (lr_outcome body); cbn [res_trace]; rewrite ?Forall_app;
    repeat split; try assumption;
    repeat match goal with |- context [if ?b then _ else _] => destruct b end;
    now repeat constructor.
Qed.

End PlanFacts.

(** ** What [tamper] does to the monitored column *)

Lemma tamper_getattr {host : Host} g r inp out datum isnull :
  slot_getattr inp (col_no g) = AttrValue datum isnull ->
  tamper g r inp = inr out ->
  slot_getattr out (col_no g)
  = AttrValue
      (Int32GetDatum
         (int32 (DatumGetInt32 datum + (Z.rem r (5 - (-5) + 1) + (-5)))))
      isnull.
Proof.
  unfold tamper. intros Hg. rewrite Hg. intros [= <-].
  unfold slot_getattr in *.
  destruct (col_no g <=? 0); [discriminate|].
  cbn [set_tts_value tts_values tts_isnull].
  destruct (tts_values inp !! Z.to_nat (col_no g - 1)) as [d|] eqn:Hv;
    [|discriminate].
  destruct (tts_isnull inp !! Z.to_nat (col_no g - 1)) as [n|] eqn:Hn;
    [|discriminate].
  injection Hg as <- <-.
  rewrite list_lookup_insert_eq by (eapply lookup_lt_Some; eauto).
  reflexivity.
Qed.

Lemma monitored_unset g slot :
  relation_oid g = 0 -> monitored g slot = (tts_tableOid slot =? 0).
Proof. unfold monitored. now intros ->. Qed.

(** ** The claims *)

Section Claims.
Context {host : Host}.


(** C3, as the code has it: when [ExecutePlan] returns, ExecShutdownNode
    has been called once inside the loop if the plan was exhausted (not when
    the receiver declined or the quota was reached), and once more after the
    loop unless EXEC_FLAG_BACKWARD is set: twice on exhaustion without the
    flag. *)
Theorem C3_shutdown_calls (g : Globals) (rnd : nat -> Z) (estate : EState)
    (planstate : list TupleTableSlot) (use_parallel_mode : bool)
    (operation : CmdType) (sendTuples : bool) (numberTuples : Z)
    (direction : ScanDirection) (dest : DestReceiver) :
  let r := ExecutePlan g rnd estate planstate use_parallel_mode operation
             sendTuples numberTuples direction dest in
  res_outcome r = Returned ->
  shutdowns (res_trace r)
  = ((if exhausted (res_trace r) then 1 else 0)
     + (if (Z.land (es_top_eflags estate) EXEC_FLAG_BACKWARD =? 0)%Z
        then 1 else 0))%nat.
Proof.
  intros r Hret. subst r.
  rewrite ExecutePlan_shutdowns by assumption.
  rewrite ExecutePlan_exhausted.
  now rewrite shutdowns_loop.
Qed.

(** C4, as the code has it: [_PG_init] saves the hook that was installed
    and installs [sentinel_ExecutorRun], [_PG_fini] puts the saved hook
    back, and a run of [sentinel_ExecutorRun] calls neither the saved hook
    nor the standard executor: it runs its own copy of the executor. *)
Theorem C4_saved_hook_is_not_called (conf_relation_oid conf_column_no : option Z)
    (g0 : Globals) (hook0 : option ExecutorRun_hook_type) (rnd : nat -> Z)
    (queryDesc : QueryDesc) (direction : ScanDirection) (count : Z)
    (execute_once : bool) :
  let init := _PG_init conf_relation_oid conf_column_no g0 hook0 in
  prev_ExecutorRun_hook (fst init) = hook0
  /\ snd init = Some hook_sentinel_ExecutorRun
  /\ snd (_PG_fini (fst init) (snd init)) = hook0
  /\ Forall (fun e => is_delegation e = false)
       (res_trace (sentinel_ExecutorRun (fst init) rnd queryDesc direction
                     count execute_once)).
Proof.
  cbn zeta. repeat split. unfold sentinel_ExecutorRun.
  destruct (USE_ASSERT_CHECKING && _); [constructor|].
  set (r := if negb (ScanDirectionIsNoMovement direction) then _ else _).
  assert (Hr : Forall (fun e => is_delegation e = false) (res_trace r)).
  { subst r. destruct (negb (ScanDirectionIsNoMovement direction)).
    - apply ExecutePlan_no_delegation.
    - constructor. }
  destruct (res_outcome r); cbn [res_trace]; rewrite ?Forall_app;
    repeat split; try assumption;
    repeat match goal with |- context [if ?b then _ else _] => destruct b end;
    now repeat constructor.
Qed.

(** C9, as the code has it: in a build with assertion checking the hook's
    Assert stops a run on an explain-only descriptor before anything else
    happens; nothing is pulled, tampered with or sent. *)
Theorem C9_assert_build_traps (g : Globals) (rnd : nat -> Z)
    (queryDesc : QueryDesc) (direction : ScanDirection) (count : Z)
    (execute_once : bool) :
  USE_ASSERT_CHECKING = true ->
  Z.land (es_top_eflags (estate queryDesc)) EXEC_FLAG_EXPLAIN_ONLY <> 0 ->
  sentinel_ExecutorRun g rnd queryDesc direction count execute_once
  = mkResult [] (estate queryDesc) Trapped.
Proof.
  intros Hassert Hflag. unfold sentinel_ExecutorRun. rewrite Hassert.
  apply Z.eqb_neq in Hflag. now rewrite Hflag.
Qed.

(** C10: with scan direction "no movement" (and the hook's Assert passing:
    a build without assertion checking, or a descriptor that is not
    explain-only), [ExecutePlan] is not entered: nothing is pulled or sent
    and [es_processed] is 0 on return; the receiver is started and shut
    down when the operation emits tuples, and the instrumentation, when
    there is one, is started before and stopped (with 0 tuples) after. *)
Theorem C10_no_movement (g : Globals) (rnd : nat -> Z) (queryDesc : QueryDesc)
    (count : Z) (execute_once : bool) :
  USE_ASSERT_CHECKING = false
  \/ Z.land (es_top_eflags (estate queryDesc)) EXEC_FLAG_EXPLAIN_ONLY = 0 ->
  let sendTuples :=
    CmdType_eqb (operation queryDesc) CMD_SELECT
    || hasReturning (plannedstmt queryDesc) in
  let r := sentinel_ExecutorRun g rnd queryDesc NoMovementScanDirection count
             execute_once in
  res_trace r
  = (if totaltime queryDesc then [EvInstrStartNode] else [])
    ++ (if sendTuples then [EvRStartup (operation queryDesc)] else [])
    ++ (if sendTuples then [EvRShutdown] else [])
    ++ (if totaltime queryDesc then [EvInstrStopNode 0] else [])
  /\ pulled (res_trace r) = []
  /\ sent (res_trace r) = []
  /\ es_processed (res_estate r) = 0
  /\ res_outcome r = Returned.
Proof.
  intros Hpass sendTuples r. subst r sendTuples.
  unfold sentinel_ExecutorRun.
  replace (USE_ASSERT_CHECKING && _) with false
    by (destruct Hpass as [-> | Hflag]; [reflexivity|];
        apply Z.eqb_eq in Hflag; rewrite Hflag; now rewrite andb_false_r).
  cbn.
  destruct (totaltime queryDesc), (CmdType_eqb _ _ || _); now cbn.
Qed.

(** C5, as the code has it: there is no check that the two settings are
    set.  With [pg_sentinel.relation_oid] left at its default 0 a tuple is
    monitored exactly when its table Oid is 0.  On a plan whose tuples all
    carry a table Oid other than 0 the run returns normally, whatever the
    column setting, and the tuples sent are, in order, the first tuples of
    the plan; with a receiver every tuple pulled is sent on as it is, and
    when moreover the receiver never declines and there is no quota, every
    tuple of the plan is pulled and sent on. *)
Theorem C5_unset_relation_passes_table_rows (conf_column_no : option Z)
    (g0 : Globals) (hook0 : option ExecutorRun_hook_type) (rnd : nat -> Z)
    (estate : EState) (planstate : list TupleTableSlot)
    (use_parallel_mode : bool) (operation : CmdType) (sendTuples : bool)
    (numberTuples : Z) (direction : ScanDirection) (dest : DestReceiver) :
  let g := fst (_PG_init None conf_column_no g0 hook0) in
  forallb (fun slot0 =>
             negb (tts_tableOid (filter_junk (es_junkFilter estate) slot0) =? 0))
          planstate = true ->
  let r := ExecutePlan g rnd estate planstate use_parallel_mode operation
             sendTuples numberTuples direction dest in
  relation_oid g = 0
  /\ (forall slot, monitored g slot = true <-> tts_tableOid slot = 0)
  /\ res_outcome r = Returned
  /\ sent (res_trace r)
       `prefix_of` map (filter_junk (es_junkFilter estate)) planstate
  /\ (sendTuples = true ->
      sent (res_trace r)
      = map (filter_junk (es_junkFilter estate)) (pulled (res_trace r)))
  /\ (sendTuples = true -> numberTuples = 0 ->
      (forall received slot, receiveSlot dest received slot = true) ->
      pulled (res_trace r) = planstate
      /\ sent (res_trace r)
         = map (filter_junk (es_junkFilter estate)) planstate).
Proof.
  intros g Hall r. subst r. split; [reflexivity|].
  split.
  { intros slot. rewrite (monitored_unset g slot eq_refl). apply Z.eqb_eq. }
  assert (Hnone : forallb (fun slot0 =>
                             negb (monitored g
                                     (filter_junk (es_junkFilter estate) slot0)))
                          planstate = true).
  { apply List.forallb_forall. intros slot0 Hin.
    rewrite List.forallb_forall in Hall. specialize (Hall slot0 Hin).
    now rewrite monitored_unset. }
  rewrite ExecutePlan_outcome, ExecutePlan_sent, ExecutePlan_pulled.
  split; [now apply loop_passthrough|].
  split; [now apply loop_passthrough|].
  assert (Hsent : sendTuples = true ->
            sent (lr_trace
                    (ExecutePlan_loop g rnd (es_junkFilter estate) operation
                       sendTuples numberTuples dest planstate 0
                       (es_processed estate) 1 []))
            = map (filter_junk (es_junkFilter estate))
                (pulled (lr_trace
                           (ExecutePlan_loop g rnd (es_junkFilter estate)
                              operation sendTuples numberTuples dest planstate
                              0 (es_processed estate) 1 [])))).
  { intros ->. now apply loop_passthrough_sent. }
  split; [exact Hsent|].
  intros Hsend Hq Hacc. rewrite (Hsent Hsend). subst sendTuples numberTuples.
  destruct (loop_runs_through g rnd (es_junkFilter estate) operation dest
              planstate 0 (es_processed estate) 1 []
              (unmonitored_tamperable g (es_junkFilter estate) planstate Hnone)
              Hacc)
    as (_ & Hp & _ & _).
  now rewrite Hp.
Qed.

(** C6, as the code has it: in a SELECT, when the [k]-th tuple of the plan
    is monitored and its monitored column holds a non-null int4, the tuple
    sent for it holds, still non-null, the 32-bit wrap-around of the
    original plus a delta in [-5, 5] (rand() being non-negative); the two
    differ by that delta, so by at most 5, whenever the original lies
    between INT32_MIN + 5 and INT32_MAX - 5. *)
Theorem C6_noise_within_five (g : Globals) (rnd : nat -> Z) (estate : EState)
    (planstate : list TupleTableSlot) (use_parallel_mode sendTuples : bool)
    (numberTuples : Z) (direction : ScanDirection) (dest : DestReceiver)
    (k : nat) (slot0 out : TupleTableSlot) (datum : Datum) :
  (forall i, 0 <= rnd i) ->
  planstate !! k = Some slot0 ->
  monitored g (filter_junk (es_junkFilter estate) slot0) = true ->
  slot_getattr (filter_junk (es_junkFilter estate) slot0) (col_no g)
  = AttrValue datum false ->
  sent (res_trace (ExecutePlan g rnd estate planstate use_parallel_mode
                     CMD_SELECT sendTuples numberTuples direction dest))
    !! k = Some out ->
  exists (datum' : Datum) (delta : Z),
    slot_getattr out (col_no g) = AttrValue datum' false
    /\ -5 <= delta <= 5
    /\ DatumGetInt32 datum' = int32 (DatumGetInt32 datum + delta)
    /\ (INT32_MIN + 5 <= DatumGetInt32 datum <= INT32_MAX - 5 ->
        DatumGetInt32 datum' - DatumGetInt32 datum = delta).
Proof.
  intros Hrnd Hk Hmon Hattr Hsent.
  rewrite ExecutePlan_sent in Hsent.
  apply loop_sent_lookup in Hsent as (slot0' & Hk' & Hfwd).
  rewrite Hk in Hk'. injection Hk' as <-.
  unfold forwarded_as in Hfwd. rewrite Hmon in Hfwd. cbn in Hfwd.
  destruct Hfwd as [i Ht].
  pose proof (tamper_getattr g (rnd i) _ out datum false Hattr Ht) as Hout.
  pose proof (noise_bounds (rnd i) (Hrnd i)) as Hd.
  set (delta := Z.rem (rnd i) (5 - (-5) + 1) + (-5)) in *.
  exists (Int32GetDatum (int32 (DatumGetInt32 datum + delta))), delta.
  assert (Hget : DatumGetInt32 (Int32GetDatum (int32 (DatumGetInt32 datum + delta)))
                 = int32 (DatumGetInt32 datum + delta)).
  { rewrite DatumGetInt32_Int32GetDatum. apply int32_small, int32_range. }
  repeat split; try assumption; try lia.
  intros Hrange. rewrite Hget, int32_small; lia.
Qed.


(** C8: with a quota [q] between 1 and 2^64 - 1, when the run without quota
    sends at least [q] tuples, the run with the quota sends exactly [q]
    tuples, pulls exactly [q] (none after the [q]-th, the plan is not asked
    again) and returns normally. *)
Theorem C8_quota_stops_after_q (g : Globals) (rnd : nat -> Z) (estate : EState)
    (planstate : list TupleTableSlot) (use_parallel_mode : bool)
    (operation : CmdType) (sendTuples : bool) (direction : ScanDirection)
    (dest : DestReceiver) (q : Z) :
  0 < q < 2 ^ 64 ->
  (Z.to_nat q
   <= length (sent (res_trace (ExecutePlan g rnd estate planstate
                                 use_parallel_mode operation sendTuples 0
                                 direction dest))))%nat ->
  let r := ExecutePlan g rnd estate planstate use_parallel_mode operation
             sendTuples q direction dest in
  length (sent (res_trace r)) = Z.to_nat q
  /\ length (pulled (res_trace r)) = Z.to_nat q
  /\ exhausted (res_trace r) = false
  /\ res_outcome r = Returned.
Proof.
  intros Hq Hlen r. subst r.
  rewrite ExecutePlan_sent in Hlen.
  rewrite ExecutePlan_sent, ExecutePlan_pulled, ExecutePlan_exhausted,
    ExecutePlan_outcome.
  destruct sendTuples.
  - pose proof (loop_quota g rnd (es_junkFilter estate) operation dest q
                  planstate 0 0 (es_processed estate) 1 []) as Hloop.
    cbn zeta in Hloop. rewrite Z.sub_0_r in Hloop.
    apply Hloop; [lia | lia | exact Hlen].
  - rewrite loop_nosend in Hlen. cbn [length] in Hlen. lia.
Qed.

End Claims.

(** ** The claims on sample runs *)

(** C2 on a run: table 17 is monitored at column 2, the only tuple of the
    plan comes from table 17 with column 2 null (datum 0), and rand() gives
    7.  The code does not test [isnull]: the tuple sent has the datum of the
    null column overwritten with 0 + (7 % 11 - 5) = 2. *)
Theorem C2_null_column_is_overwritten :
  slot_getattr (row_null 17 1) (col_no g17) = AttrValue 0 true
  /\ sent (res_trace (ExecutePlan (host := pg_release) g17 rnd_from6
                        plain_estate [row_null 17 1] false CMD_SELECT true 0
                        ForwardScanDirection accept_all))
     = [mkSlot 17 [1; 2] [false; true]].
Proof. split; reflexivity. Qed.



(** A SELECT run to the end of the plan without EXEC_FLAG_BACKWARD: the plan
    node is shut down twice. *)
Lemma C3_counterexample :
  let r := ExecutePlan (host := pg_release) g17 rnd_from6 plain_estate
             sample_rows false CMD_SELECT true 0 ForwardScanDirection
             accept_all in
  res_outcome r = Returned
  /\ exhausted (res_trace r) = true
  /\ Z.land (es_top_eflags plain_estate) 4 = 0
  /\ shutdowns (res_trace r) <> 1%nat.
Proof. cbn zeta. repeat split. vm_compute. discriminate. Qed.

(** The receiver declines the second tuple: one shutdown, after the loop. *)
Lemma C3_witness :
  let r := ExecutePlan (host := pg_release) g17 rnd_from6 plain_estate
             sample_rows false CMD_SELECT true 0 ForwardScanDirection
             accept_one in
  res_outcome r = Returned
  /\ shutdowns (res_trace r)
     = ((if exhausted (res_trace r) then 1 else 0)
        + (if (Z.land (es_top_eflags plain_estate) 4 =? 0)%Z then 1 else 0))%nat.
Proof.
  cbn zeta. split; [reflexivity|].
  apply (C3_shutdown_calls (host := pg_release) g17 rnd_from6 plain_estate
           sample_rows false CMD_SELECT true 0 ForwardScanDirection accept_one).
  reflexivity.
Defined.

(** With another module's hook saved at initialization, the run does not
    start by calling it. *)
Lemma C4_counterexample :
  let g := fst (_PG_init (host := pg_release) (Some 17) (Some 2)
                  initial_globals (Some (hook_of_other_module 7))) in
  let r := sentinel_ExecutorRun (host := pg_release) g rnd_from6
             (select_desc 0 sample_rows) ForwardScanDirection 0 true in
  prev_ExecutorRun_hook g = Some (hook_of_other_module 7)
  /\ ~ delegates_first g r.
Proof. cbn zeta. split; [reflexivity|]. intros Hd. vm_compute in Hd. discriminate. Qed.

(** Table Oid left at 0, column 2: a tuple with table Oid 0 is sent with its
    second column changed from 100 to 102. *)
Lemma C5_counterexample :
  let g := fst (_PG_init (host := pg_release) None (Some 2) initial_globals
                  None) in
  let r := ExecutePlan (host := pg_release) g rnd_from6 plain_estate
             [row 0 1 100] false CMD_SELECT true 0 ForwardScanDirection
             accept_all in
  relation_oid g = 0
  /\ sent (res_trace r) = [row 0 1 102]
  /\ row 0 1 102 <> row 0 1 100.
Proof. cbn zeta. repeat split. discriminate. Qed.

(** Table Oid left at 0: the sample plan, all from tables 17 and 42, goes
    through unchanged. *)
Lemma C5_witness :
  let g := fst (_PG_init (host := pg_release) None (Some 2) initial_globals
                  None) in
  let r := ExecutePlan (host := pg_release) g rnd_from6 plain_estate
             sample_rows false CMD_SELECT true 0 ForwardScanDirection
             accept_all in
  relation_oid g = 0
  /\ (forall slot, monitored g slot = true <-> tts_tableOid slot = 0)
  /\ res_outcome r = Returned
  /\ pulled (res_trace r) = sample_rows
  /\ sent (res_trace r) = sample_rows.
Proof.
  destruct (C5_unset_relation_passes_table_rows (host := pg_release) (Some 2)
              initial_globals None rnd_from6 plain_estate sample_rows false
              CMD_SELECT true 0 ForwardScanDirection accept_all eq_refl)
    as (Hoid & Hmon & Hret & _ & _ & Hall).
  destruct (Hall eq_refl eq_refl (fun _ _ => eq_refl)) as [Hp Hs].
  split; [exact Hoid|]. split; [exact Hmon|]. split; [exact Hret|].
  split; [exact Hp|]. exact Hs.
Defined.

(** INT32_MAX in the monitored column with rand() = 7: the value sent is
    INT32_MAX + 2 wrapped around. *)
Lemma C6_counterexample :
  let r := ExecutePlan (host := pg_release) g17 rnd_from6 plain_estate
             [row 17 1 2147483647] false CMD_SELECT true 0
             ForwardScanDirection accept_all in
  slot_getattr (row 17 1 2147483647) (col_no g17)
  = AttrValue (Int32GetDatum 2147483647) false
  /\ sent (res_trace r) = [row 17 1 (-2147483647)]
  /\ slot_getattr (row 17 1 (-2147483647)) (col_no g17)
     = AttrValue (Int32GetDatum (-2147483647)) false
  /\ ~ (-5 <= DatumGetInt32 (Int32GetDatum (-2147483647))
              - DatumGetInt32 (Int32GetDatum 2147483647) <= 5).
Proof. cbn zeta. repeat split. vm_compute. intros [H _]. now apply H. Qed.

(** 100 in the monitored column with rand() = 7: 102 is sent. *)
Lemma C6_witness :
  exists (datum' : Datum) (delta : Z),
    slot_getattr (row 17 1 102) (col_no g17) = AttrValue datum' false
    /\ -5 <= delta <= 5
    /\ DatumGetInt32 datum' = int32 (DatumGetInt32 (Int32GetDatum 100) + delta)
    /\ (INT32_MIN + 5 <= DatumGetInt32 (Int32GetDatum 100) <= INT32_MAX - 5 ->
        DatumGetInt32 datum' - DatumGetInt32 (Int32GetDatum 100) = delta).
Proof.
  apply (C6_noise_within_five (host := pg_release) g17 rnd_from6 plain_estate
           sample_rows false true 0 ForwardScanDirection accept_all 0
           (row 17 1 100) (row 17 1 102) (Int32GetDatum 100)).
  - intros i. unfold rnd_from6. lia.
  - reflexivity.
  - reflexivity.
  - reflexivity.
  - reflexivity.
Defined.


(** A quota of 2 on the sample plan of three tuples. *)
Lemma C8_witness :
  let r := ExecutePlan (host := pg_release) g17 rnd_from6 plain_estate
             sample_rows false CMD_SELECT true 2 ForwardScanDirection
             accept_all in
  length (sent (res_trace r)) = Z.to_nat 2
  /\ length (pulled (res_trace r)) = Z.to_nat 2
  /\ exhausted (res_trace r) = false
  /\ res_outcome r = Returned.
Proof.
  apply (C8_quota_stops_after_q (host := pg_release) g17 rnd_from6 plain_estate
           sample_rows false CMD_SELECT true ForwardScanDirection accept_all 2).
  - lia.
  - vm_compute. lia.
Defined.

(** A production build runs an explain-only descriptor and tampers with its
    monitored tuple. *)
Lemma C9_counterexample :
  let queryDesc := select_desc 1 [row 17 1 100] in
  let r := sentinel_ExecutorRun (host := pg_release) g17 rnd_from6 queryDesc
             ForwardScanDirection 0 true in
  Z.land (es_top_eflags (estate queryDesc))
         (EXEC_FLAG_EXPLAIN_ONLY (Host := pg_release)) <> 0
  /\ sent (res_trace r) = [row 17 1 102]
  /\ ~ refused r.
Proof.
  cbn zeta. split; [discriminate|]. split; [reflexivity|].
  intros [Ho _]. now apply Ho.
Qed.

(** An assertion-checking build on an explain-only descriptor. *)
Lemma C9_witness :
  sentinel_ExecutorRun (host := pg_cassert) g17 rnd_from6
    (select_desc 1 sample_rows) ForwardScanDirection 0 true
  = mkResult [] (estate (select_desc 1 sample_rows)) Trapped.
Proof.
  apply (C9_assert_build_traps (host := pg_cassert) g17 rnd_from6
           (select_desc 1 sample_rows) ForwardScanDirection 0 true).
  - reflexivity.
  - discriminate.
Defined.

(** A SELECT with instrumentation and no movement. *)
Lemma C10_witness :
  let queryDesc := select_desc 0 sample_rows in
  let r := sentinel_ExecutorRun (host := pg_release) g17 rnd_from6 queryDesc
             NoMovementScanDirection 0 true in
  res_trace r = [EvInstrStartNode; EvRStartup CMD_SELECT; EvRShutdown;
                 EvInstrStopNode 0]
  /\ pulled (res_trace r) = []
  /\ sent (res_trace r) = []
  /\ es_processed (res_estate r) = 0
  /\ res_outcome r = Returned.
Proof.
  apply (C10_no_movement (host := pg_release) g17 rnd_from6
           (select_desc 0 sample_rows) 0 true).
  right. reflexivity.
Defined.

(** ** Further facts about the loop *)

Lemma answers_app t1 t2 : answers (t1 ++ t2) = answers t1 ++ answers t2.
Proof. apply omap_app. Qed.

Lemma answers_nil : answers [] = [].
Proof. reflexivity. Qed.

Lemma answers_pull x t : answers (EvExecProcNode x :: t) = answers t.
Proof. reflexivity. Qed.

Lemma answers_recv slot more t :
  answers (EvReceiveSlot slot more :: t) = more :: answers t.
Proof. reflexivity. Qed.

Lemma answers_shutdown t : answers (EvExecShutdownNode :: t) = answers t.
Proof. reflexivity. Qed.

#[local] Hint Rewrite answers_app answers_nil answers_pull answers_recv
  answers_shutdown : trace.

Lemma monitored_before_0 g junkFilter planstate :
  monitored_before g junkFilter 0 planstate = 0%nat.
Proof. reflexivity. Qed.

Lemma monitored_before_S g junkFilter k slot0 planstate :
  monitored_before g junkFilter (S k) (slot0 :: planstate)
  = ((if monitored g (filter_junk junkFilter slot0) then 1 else 0)
     + monitored_before g junkFilter k planstate)%nat.
Proof.
  unfold monitored_before. cbn [take List.filter].
  now destruct (monitored g (filter_junk junkFilter slot0)).
Qed.

Lemma length_answers t : length (answers t) = length (sent t).
Proof.
  unfold answers, sent.
  induction t as [|e t IH]; [reflexivity|].
  destruct e; cbn; auto.
Qed.

Lemma calls_app kind t1 t2 :
  calls kind (t1 ++ t2) = (calls kind t1 + calls kind t2)%nat.
Proof. unfold calls. now rewrite List.filter_app, length_app. Qed.

Lemma calls_none kind t :
  Forall (fun e => kind e = false) t -> calls kind t = 0%nat.
Proof.
  unfold calls. induction 1 as [|e t He _ IH]; [reflexivity|].
  cbn. now rewrite He.
Qed.

Lemma count_tuple_fails {host : Host} g rnd operation inp es rc o :
  count_tuple g rnd operation inp es rc = inl o ->
  operation = CMD_SELECT /\ monitored g inp = true /\ readable g inp = false
  /\ (o = Raised ERROR /\ 0 < col_no g \/ o = Undefined /\ col_no g <= 0).
Proof.
  unfold count_tuple, readable, tamper, slot_getattr.
  destruct operation; cbn [CmdType_eqb]; try discriminate.
  destruct (monitored g inp); [|discriminate].
  destruct (col_no g <=? 0) eqn:Hc.
  - intros [= <-]. apply Z.leb_le in Hc. auto 6.
  - apply Z.leb_gt in Hc.
    destruct (tts_values inp !! Z.to_nat (col_no g - 1)),
      (tts_isnull inp !! Z.to_nat (col_no g - 1));
      try discriminate; intros [= <-]; auto 6.
Qed.

Lemma count_tuple_other {host : Host} g rnd operation inp es rc :
  operation <> CMD_SELECT ->
  count_tuple g rnd operation inp es rc = inr (inp, es, rc).
Proof. unfold count_tuple. now destruct operation. Qed.

Lemma count_tuple_draws {host : Host} g rnd inp es rc out es' rc' :
  count_tuple g rnd CMD_SELECT inp es rc = inr (out, es', rc') ->
  if monitored g inp
  then tamper g (rnd rc) inp = inr out /\ rc' = S rc
  else out = inp /\ rc' = rc.
Proof.
  unfold count_tuple. cbn [CmdType_eqb].
  destruct (monitored g inp).
  - destruct (tamper g (rnd rc) inp); [discriminate|]. now intros [= -> _ <-].
  - now intros [= -> _ <-].
Qed.

Lemma tamper_frame {host : Host} g r inp out :
  tamper g r inp = inr out ->
  tts_tableOid out = tts_tableOid inp
  /\ tts_isnull out = tts_isnull inp
  /\ length (tts_values out) = length (tts_values inp)
  /\ forall j : nat, Z.of_nat j <> col_no g - 1 ->
                     tts_values out !! j = tts_values inp !! j.
Proof.
  unfold tamper, slot_getattr.
  destruct (col_no g <=? 0) eqn:Hc; [discriminate|]. apply Z.leb_gt in Hc.
  destruct (tts_values inp !! Z.to_nat (col_no g - 1)),
    (tts_isnull inp !! Z.to_nat (col_no g - 1)); try discriminate.
  intros [= <-]. cbn [set_tts_value tts_tableOid tts_isnull tts_values].
  repeat split.
  - apply length_insert.
  - intros j Hj. apply list_lookup_insert_ne. lia.
Qed.

Section MoreLoopFacts.
Context {host : Host}.
Variable g : Globals.
Variable rnd : nat -> Z.
Variable junkFilter : option (TupleTableSlot -> TupleTableSlot).
Variable operation : CmdType.
Variable dest : DestReceiver.

Local Abbreviation loop := (ExecutePlan_loop g rnd junkFilter operation).
Local Abbreviation junk := (filter_junk junkFilter).

Ltac turns :=
  match goal with
  | |- context [ExecutePlan_loop ?g0 ?rnd0 ?j ?op ?st ?nt ?d (?slot0 :: ?pl)
                  ?c ?es ?rc ?recv] =>
      let r := fresh "r" in
      let T := fresh "T" in
      generalize (loop_turn g0 rnd0 j op d st nt slot0 pl c es rc recv);
      generalize (ExecutePlan_loop g0 rnd0 j op st nt d (slot0 :: pl) c es rc recv);
      intros r T; destruct T;
      repeat match goal with x := ExecutePlan_loop _ _ _ _ _ _ _ _ _ _ _ _ |- _ =>
               subst x end;
      cbn [lr_trace lr_processed lr_outcome]
  end.

Ltac same_turn :=
  match goal with
  | H1 : ?x = inl _, H2 : ?x = inr _ |- _ => congruence
  | H1 : ?x = inr _, H2 : ?x = inr _ |- _ =>
      rewrite H1 in H2; injection H2 as <- <- <-
  | H1 : ?x = false, H2 : true = true -> ?x = true |- _ =>
      specialize (H2 eq_refl); congruence
  end.

(** The plan is consumed in order; nothing is sent that was not pulled. *)
Lemma loop_pulls_in_order sendTuples numberTuples planstate c es rc received :
  let r := loop sendTuples numberTuples dest planstate c es rc received in
  pulled (lr_trace r) `prefix_of` planstate
  /\ (length (sent (lr_trace r)) <= length (pulled (lr_trace r)))%nat
  /\ (exhausted (lr_trace r) = true -> pulled (lr_trace r) = planstate).
Proof.
  cbn zeta. revert c es rc received.
  induction planstate as [|slot0 planstate IH]; intros c es rc received.
  - cbn [ExecutePlan_loop lr_trace]. autorewrite with trace. cbn [length].
    repeat split; [apply prefix_nil | lia].
  - turns; autorewrite with trace; cbn [app length].
    + repeat split; [apply prefix_cons, prefix_nil | lia | discriminate].
    + repeat split; [apply prefix_cons, prefix_nil | lia | discriminate].
    + destruct sendTuples; autorewrite with trace; cbn [app length];
        (repeat split; [apply prefix_cons, prefix_nil | lia | discriminate]).
    + destruct (IH (uint64 (c + 1)) es' rc'
                  (if sendTuples then received ++ [slot] else received))
        as (Hp & Hl & He).
      destruct sendTuples; autorewrite with trace; cbn [app length];
        (repeat split; [now apply prefix_cons | lia |]);
        intros Hx; now rewrite He.
Qed.

(** In a SELECT that returns, the counter has advanced once per tuple
    pulled. *)
Lemma loop_counts_pulled sendTuples numberTuples planstate c es rc received :
  operation = CMD_SELECT ->
  0 <= es < 2 ^ 64 ->
  let r := loop sendTuples numberTuples dest planstate c es rc received in
  lr_outcome r = Returned ->
  lr_processed r = uint64 (es + Z.of_nat (length (pulled (lr_trace r)))).
Proof.
  intros Hop. cbn zeta. revert c es rc received.
  induction planstate as [|slot0 planstate IH]; intros c es rc received Hes.
  - cbn [ExecutePlan_loop lr_trace lr_processed]. autorewrite with trace.
    intros _. cbn [length]. rewrite Z.add_0_r. symmetry.
    now apply uint64_small.
  - turns; autorewrite with trace; cbn [app length]; intros Hret.
    + apply count_tuple_fails in H as (_ & _ & _ & [[-> _] | [-> _]]);
        discriminate.
    + now apply count_tuple_select in H.
    + apply count_tuple_select in H; [|assumption]. subst es'.
      destruct sendTuples; now autorewrite with trace.
    + apply count_tuple_select in H; [|assumption]. subst es'.
      rewrite IH;
        [|unfold uint64; apply Z.mod_pos_bound; lia | assumption].
      rewrite uint64_add_l.
      destruct sendTuples; autorewrite with trace; cbn [app length];
        f_equal; lia.
Qed.

(** Outside a SELECT the loop neither counts nor rewrites nor fails. *)
Lemma loop_other_operation sendTuples numberTuples planstate c es rc received :
  operation <> CMD_SELECT ->
  let r := loop sendTuples numberTuples dest planstate c es rc received in
  lr_outcome r = Returned
  /\ lr_processed r = es
  /\ sent (lr_trace r) `prefix_of` map junk planstate.
Proof.
  intros Hop. cbn zeta. revert c es rc received.
  induction planstate as [|slot0 planstate IH]; intros c es rc received.
  - repeat split. apply prefix_nil.
  - pose proof (count_tuple_other g rnd operation (junk slot0) es rc Hop)
      as Hct.
    turns; try same_turn; autorewrite with trace; cbn [app map].
    + repeat split. apply prefix_cons, prefix_nil.
    + repeat split.
      destruct sendTuples; autorewrite with trace;
        [apply prefix_cons|]; apply prefix_nil.
    + destruct (IH (uint64 (c + 1)) es rc
                  (if sendTuples then received ++ [junk slot0] else received))
        as (Ho & Hp & Hs).
      repeat split; try assumption.
      destruct sendTuples; autorewrite with trace; cbn [app].
      * now apply prefix_cons.
      * rewrite loop_nosend. apply prefix_nil.
Qed.

(** Once the receiver has declined nothing more is pulled or sent. *)
Lemma loop_decline_is_last sendTuples numberTuples planstate c es rc received k :
  let r := loop sendTuples numberTuples dest planstate c es rc received in
  answers (lr_trace r) !! k = Some false ->
  length (sent (lr_trace r)) = S k
  /\ length (pulled (lr_trace r)) = S k
  /\ exhausted (lr_trace r) = false
  /\ lr_outcome r = Returned.
Proof.
  cbn zeta. destruct sendTuples.
  - revert c es rc received k.
    induction planstate as [|slot0 planstate IH]; intros c es rc received k.
    + discriminate.
    + turns; autorewrite with trace; cbn [app length].
      * discriminate.
      * destruct k as [|k]; [|discriminate]. now intros _.
      * destruct k as [|k]; discriminate.
      * destruct k as [|k]; [discriminate|]. cbn [lookup list_lookup].
        intros Hk. apply IH in Hk as (Hs & Hp & He & Ho).
        now rewrite Hs, Hp, He, Ho.
  - intros Hk. apply lookup_lt_Some in Hk.
    rewrite length_answers, loop_nosend in Hk. cbn in Hk. lia.
Qed.

(** With a quota no more tuples are pulled than the quota leaves. *)
Lemma loop_quota_bound sendTuples q planstate c es rc received :
  0 <= c < q -> q < 2 ^ 64 ->
  (length (pulled (lr_trace (loop sendTuples q dest planstate c es rc received)))
   <= Z.to_nat (q - c))%nat.
Proof.
  revert c es rc received.
  induction planstate as [|slot0 planstate IH]; intros c es rc received Hc Hq.
  - cbn [ExecutePlan_loop lr_trace]. autorewrite with trace. cbn [length]. lia.
  - turns; autorewrite with trace; cbn [app length]; try lia.
    + destruct sendTuples; autorewrite with trace; cbn [app length]; lia.
    + rewrite (uint64_small (c + 1)) in * by lia.
      specialize (IH (c + 1) es' rc'
                    (if sendTuples then received ++ [slot] else received)).
      destruct sendTuples; autorewrite with trace; cbn [app length]; lia.
Qed.

(** A quota only cuts the run short: what is pulled and what is sent under
    a quota is a beginning of what is pulled and sent without one. *)
Lemma loop_quota_truncates sendTuples q planstate c c0 es rc received :
  0 <= c < q -> q < 2 ^ 64 ->
  let rq := loop sendTuples q dest planstate c es rc received in
  let r0 := loop sendTuples 0 dest planstate c0 es rc received in
  sent (lr_trace rq) `prefix_of` sent (lr_trace r0)
  /\ pulled (lr_trace rq) `prefix_of` pulled (lr_trace r0).
Proof.
  cbn zeta. revert c c0 es rc received.
  induction planstate as [|slot0 planstate IH];
    intros c c0 es rc received Hc Hq.
  - split; reflexivity.
  - destruct sendTuples; turns; turns; repeat same_turn;
      repeat match goal with
             | Ht : true = true -> _ |- _ => specialize (Ht eq_refl)
             end;
      try congruence; autorewrite with trace; cbn [app];
      try solve [split; repeat first [reflexivity | apply prefix_nil
                                     | apply prefix_cons]].
    all: rewrite (uint64_small (c + 1)) in * by lia.
    all: match goal with
         | |- context [ExecutePlan_loop _ _ _ _ _ _ _ _ _ ?e ?r ?rv] =>
             destruct (IH (c + 1) (uint64 (c0 + 1)) e r rv) as [Hs Hp];
             [lia | lia |]
         end.
    all: split; repeat apply prefix_cons; assumption.
Qed.

(** In a SELECT, the monitored tuple sent in place [k] was rewritten with
    the draw numbered by the monitored tuples before it. *)
Lemma loop_draw_index sendTuples numberTuples planstate c es rc received k
    slot0 out :
  operation = CMD_SELECT ->
  planstate !! k = Some slot0 ->
  monitored g (junk slot0) = true ->
  sent (lr_trace (loop sendTuples numberTuples dest planstate c es rc received))
    !! k = Some out ->
  tamper g (rnd (rc + monitored_before g junkFilter k planstate)) (junk slot0)
  = inr out.
Proof.
  intros Hop. destruct sendTuples; [|now rewrite loop_nosend].
  revert c es rc received k.
  induction planstate as [|slot1 planstate IH];
    intros c es rc received k Hk Hmon.
  - discriminate.
  - assert (Hfirst : forall slot es' rc',
               count_tuple g rnd operation (junk slot1) es rc
               = inr (slot, es', rc') ->
               k = 0%nat -> tamper g (rnd (rc + 0)) (junk slot0) = inr slot).
    { intros slot es' rc' Hct ->. injection Hk as ->.
      rewrite Hop in Hct. apply count_tuple_draws in Hct.
      rewrite Hmon in Hct. now rewrite Nat.add_0_r. }
    turns; autorewrite with trace; cbn [app].
    + discriminate.
    + destruct k as [|k]; [|discriminate]. intros [= <-]. eauto.
    + destruct k as [|k]; [|discriminate]. intros [= <-]. eauto.
    + destruct k as [|k]; [intros [= <-]; eauto|].
      cbn [lookup list_lookup] in Hk |- *. intros Hout.
      rewrite monitored_before_S.
      rewrite Hop in H. apply count_tuple_draws in H.
      specialize (IH (uint64 (c + 1)) es' rc' (received ++ [slot]) k Hk Hmon
                    Hout).
      destruct (monitored g (junk slot1)); destruct H as [_ ->].
      * now replace (rc + (1 + monitored_before g junkFilter k planstate))%nat
          with (S rc + monitored_before g junkFilter k planstate)%nat by lia.
      * exact IH.
Qed.

(** The loop ends otherwise than by returning only in a SELECT, at a
    monitored tuple whose monitored column cannot be read: that tuple is the
    last one pulled, and the plan node is not shut down. *)
Lemma loop_fails_on_unreadable sendTuples numberTuples planstate c es rc
    received :
  let r := loop sendTuples numberTuples dest planstate c es rc received in
  lr_outcome r <> Returned ->
  operation = CMD_SELECT
  /\ (exists slot0, last (pulled (lr_trace r)) = Some slot0
                    /\ monitored g (junk slot0) = true
                    /\ readable g (junk slot0) = false)
  /\ exhausted (lr_trace r) = false
  /\ (lr_outcome r = Raised ERROR /\ 0 < col_no g
      \/ lr_outcome r = Undefined /\ col_no g <= 0).
Proof.
  cbn zeta. revert c es rc received.
  induction planstate as [|slot0 planstate IH]; intros c es rc received.
  - intros Hne. now contradiction Hne.
  - turns; autorewrite with trace; intros Hne; try now contradiction Hne.
    + apply count_tuple_fails in H as (Hop & Hm & Hr & Ho).
      repeat split; try assumption. now exists slot0.
    + apply IH in Hne as (Hop & (slot1 & Hl & Hm & Hr) & He & Ho).
      repeat split; try assumption.
      * exists slot1. split; [|auto].
        destruct sendTuples; autorewrite with trace; cbn [app];
          (destruct (pulled _) as [|p ps]; [discriminate|];
           now rewrite last_cons_cons).
      * destruct sendTuples; now autorewrite with trace.
Qed.

(** The loop calls the plan node and the receiver, nothing else. *)
Lemma loop_only_loop_calls sendTuples numberTuples planstate c es rc received :
  Forall (fun e => is_loop_call e = true)
    (lr_trace (loop sendTuples numberTuples dest planstate c es rc received)).
Proof.
  revert c es rc received.
  induction planstate as [|slot0 planstate IH]; intros c es rc received.
  - now repeat constructor.
  - turns; try (now repeat constructor).
    + destruct sendTuples; now repeat constructor.
    + apply Forall_app. split; [|apply IH].
      destruct sendTuples; now repeat constructor.
Qed.

End MoreLoopFacts.

Lemma count_tuple_draws_on {host : Host} g rnd operation inp es rc out es' rc' :
  count_tuple g rnd operation inp es rc = inr (out, es', rc') ->
  (rc <= rc')%nat.
Proof.
  unfold count_tuple.
  destruct (CmdType_eqb operation CMD_SELECT); [|intros [= _ _ <-]; lia].
  destruct (monitored g inp); [|intros [= _ _ <-]; lia].
  destruct (tamper g (rnd rc) inp); [discriminate|]. intros [= _ _ <-]. lia.
Qed.

(** The loop started after [rc] draws reads no earlier draw. *)
Lemma loop_draws_from {host : Host} g rnd rnd' junkFilter operation sendTuples
    numberTuples dest planstate c es rc received :
  (forall i, (rc <= i)%nat -> rnd i = rnd' i) ->
  ExecutePlan_loop g rnd junkFilter operation sendTuples numberTuples dest
    planstate c es rc received
  = ExecutePlan_loop g rnd' junkFilter operation sendTuples numberTuples dest
      planstate c es rc received.
Proof.
  revert c es rc received.
  induction planstate as [|slot0 planstate IH]; intros c es rc received Hext.
  - reflexivity.
  - cbn [ExecutePlan_loop].
    assert (Hct : count_tuple g rnd' operation (filter_junk junkFilter slot0)
                    es rc
                  = count_tuple g rnd operation (filter_junk junkFilter slot0)
                      es rc).
    { unfold count_tuple. now rewrite (Hext rc) by lia. }
    rewrite Hct.
    destruct (count_tuple g rnd operation _ es rc)
      as [o | [[slot es'] rc']] eqn:Hr; [reflexivity|].
    apply count_tuple_draws_on in Hr.
    rewrite IH; [reflexivity|].
    intros i Hi. apply Hext. lia.
Qed.

(** ** Further facts about ExecutePlan *)

Section MorePlanFacts.
Context {host : Host}.
Variable g : Globals.
Variable rnd : nat -> Z.
Variable estate : EState.
Variable planstate : list TupleTableSlot.
Variable use_parallel_mode : bool.
Variable operation : CmdType.
Variable sendTuples : bool.
Variable numberTuples : Z.
Variable direction : ScanDirection.
Variable dest : DestReceiver.

Local Abbreviation plan :=
  (ExecutePlan g rnd estate planstate use_parallel_mode operation sendTuples
     numberTuples direction dest).
Local Abbreviation body :=
  (ExecutePlan_loop g rnd (es_junkFilter estate) operation sendTuples
     numberTuples dest planstate 0 (es_processed estate) 1 []).
Local Abbreviation parallel :=
  (if negb (numberTuples =? 0) then false else use_parallel_mode).

(** The trace of [ExecutePlan] around that of its loop. *)
Lemma ExecutePlan_trace :
  res_trace plan
  = (if parallel then [EvEnterParallelMode] else [])
    ++ lr_trace body
    ++ match lr_outcome body with
       | Returned =>
           (if negb (Z.land (es_top_eflags estate) EXEC_FLAG_BACKWARD =? 0)
            then [] else [EvExecShutdownNode])
           ++ (if parallel then [EvExitParallelMode] else [])
       | _ => []
       end.
Proof.
  unfold ExecutePlan. cbn.
  destruct (lr_outcome body); cbn [res_trace]; now rewrite ?app_nil_r.
Qed.

Lemma ExecutePlan_answers : answers (res_trace plan) = answers (lr_trace body).
Proof.
  rewrite ExecutePlan_trace, !answers_app.
  destruct parallel, (lr_outcome body),
    (negb (Z.land (es_top_eflags estate) EXEC_FLAG_BACKWARD =? 0));
    cbn; now rewrite ?app_nil_r.
Qed.

Lemma ExecutePlan_calls :
  Forall (fun e => is_loop_call e || is_enter_parallel e || is_exit_parallel e
                   = true)
    (res_trace plan).
Proof.
  rewrite ExecutePlan_trace. rewrite !Forall_app. repeat split.
  - destruct parallel; now repeat constructor.
  - eapply Forall_impl; [apply loop_only_loop_calls|].
    intros e He. cbn beta in He. now rewrite He.
  - destruct (lr_outcome body); try constructor.
    rewrite Forall_app. split.
    + destruct (negb _); now repeat constructor.
    + destruct parallel; now repeat constructor.
Qed.

End MorePlanFacts.

(** ** Further properties of the code *)

Section Extras.
Context {host : Host}.

(** X1: after [_PG_init] both settings lie within the bounds given to
    DefineCustomIntVariable, 0 and INT_MAX, whatever the configuration
    file says; with INT_MAX below 2^32 the unsigned comparison of line 125
    is then plain equality of the tuple's table Oid and [relation_oid]. *)
Theorem X1_settings_within_bounds (conf_relation_oid conf_column_no : option Z)
    (g0 : Globals) (hook0 : option ExecutorRun_hook_type) :
  0 <= INT_MAX < 2 ^ 32 ->
  let g := fst (_PG_init conf_relation_oid conf_column_no g0 hook0) in
  0 <= relation_oid g <= INT_MAX
  /\ 0 <= col_no g <= INT_MAX
  /\ forall slot, monitored g slot = true <-> tts_tableOid slot = relation_oid g.
Proof.
  intros Hmax g.
  assert (Hb : forall conf, 0 <= DefineCustomIntVariable conf 0 0 INT_MAX
                            <= INT_MAX).
  { intros [v|]; unfold DefineCustomIntVariable; [|lia].
    destruct (0 <=? v) eqn:H0, (v <=? INT_MAX) eqn:H1; cbn [andb]; lia. }
  pose proof (Hb conf_relation_oid) as Hoid.
  repeat split; try apply Hb.
  - unfold monitored. intros Hm. apply Z.eqb_eq in Hm. rewrite Hm.
    unfold uint32. apply Z.mod_small. subst g. cbn [fst _PG_init relation_oid].
    lia.
  - unfold monitored. intros ->. apply Z.eqb_eq. symmetry.
    unfold uint32. apply Z.mod_small. subst g. cbn [fst _PG_init relation_oid].
    lia.
Qed.

(** X2: for an operation other than SELECT, [ExecutePlan] never fails,
    leaves [es_processed] as it was and sends the tuples of the plan, as the
    junk filter leaves them, unchanged and in order. *)
Theorem X2_other_operations_pass_through (g : Globals) (rnd : nat -> Z)
    (estate : EState) (planstate : list TupleTableSlot)
    (use_parallel_mode : bool) (operation : CmdType) (sendTuples : bool)
    (numberTuples : Z) (direction : ScanDirection) (dest : DestReceiver) :
  operation <> CMD_SELECT ->
  let r := ExecutePlan g rnd estate planstate use_parallel_mode operation
             sendTuples numberTuples direction dest in
  res_outcome r = Returned
  /\ es_processed (res_estate r) = es_processed estate
  /\ sent (res_trace r)
       `prefix_of` map (filter_junk (es_junkFilter estate)) planstate.
Proof.
  intros Hop r. subst r.
  rewrite ExecutePlan_outcome, ExecutePlan_processed, ExecutePlan_sent.
  now apply loop_other_operation.
Qed.

(** X3: when a SELECT returns, [es_processed] has advanced by the number of
    tuples pulled from the plan, modulo 2^64, with or without a receiver. *)
Theorem X3_select_counts_pulled (g : Globals) (rnd : nat -> Z)
    (estate : EState) (planstate : list TupleTableSlot)
    (use_parallel_mode sendTuples : bool) (numberTuples : Z)
    (direction : ScanDirection) (dest : DestReceiver) :
  0 <= es_processed estate < 2 ^ 64 ->
  let r := ExecutePlan g rnd estate planstate use_parallel_mode CMD_SELECT
             sendTuples numberTuples direction dest in
  res_outcome r = Returned ->
  es_processed (res_estate r)
  = uint64 (es_processed estate + Z.of_nat (length (pulled (res_trace r)))).
Proof.
  intros Hes r. subst r.
  rewrite ExecutePlan_outcome, ExecutePlan_processed, ExecutePlan_pulled.
  now apply loop_counts_pulled.
Qed.

(** X4: the tuples pulled are the first tuples of the plan, in order; no
    more tuples are sent than were pulled; and when the plan node has
    returned NULL every tuple of the plan was pulled. *)
Theorem X4_plan_consumed_in_order (g : Globals) (rnd : nat -> Z)
    (estate : EState) (planstate : list TupleTableSlot)
    (use_parallel_mode : bool) (operation : CmdType) (sendTuples : bool)
    (numberTuples : Z) (direction : ScanDirection) (dest : DestReceiver) :
  let r := ExecutePlan g rnd estate planstate use_parallel_mode operation
             sendTuples numberTuples direction dest in
  pulled (res_trace r) `prefix_of` planstate
  /\ (length (sent (res_trace r)) <= length (pulled (res_trace r)))%nat
  /\ (exhausted (res_trace r) = true -> pulled (res_trace r) = planstate).
Proof.
  intros r. subst r.
  rewrite ExecutePlan_pulled, ExecutePlan_sent, ExecutePlan_exhausted.
  apply loop_pulls_in_order.
Qed.

(** X5: when the receiver declines the tuple sent in place [k] (counting
    from 0), that tuple is the last one pulled and the last one sent, the
    plan node is not asked again, [ExecutePlan] returns normally and the
    plan node is shut down once, or not at all under EXEC_FLAG_BACKWARD. *)
Theorem X5_decline_ends_the_run (g : Globals) (rnd : nat -> Z)
    (estate : EState) (planstate : list TupleTableSlot)
    (use_parallel_mode : bool) (operation : CmdType) (sendTuples : bool)
    (numberTuples : Z) (direction : ScanDirection) (dest : DestReceiver)
    (k : nat) :
  let r := ExecutePlan g rnd estate planstate use_parallel_mode operation
             sendTuples numberTuples direction dest in
  answers (res_trace r) !! k = Some false ->
  length (sent (res_trace r)) = S k
  /\ length (pulled (res_trace r)) = S k
  /\ exhausted (res_trace r) = false
  /\ res_outcome r = Returned
  /\ shutdowns (res_trace r)
     = (if (Z.land (es_top_eflags estate) EXEC_FLAG_BACKWARD =? 0)%Z
        then 1 else 0)%nat.
Proof.
  intros r Hk. subst r. rewrite ExecutePlan_answers in Hk.
  apply loop_decline_is_last in Hk as (Hs & Hp & He & Ho).
  assert (Hret : res_outcome
                   (ExecutePlan g rnd estate planstate use_parallel_mode
                      operation sendTuples numberTuples direction dest)
                 = Returned) by now rewrite ExecutePlan_outcome.
  rewrite (ExecutePlan_shutdowns _ _ _ _ _ _ _ _ _ _ Hret).
  rewrite shutdowns_loop, He.
  rewrite ExecutePlan_sent, ExecutePlan_pulled, ExecutePlan_exhausted.
  repeat split; assumption.
Qed.

(** X6: under a quota [q] between 1 and 2^64 - 1 at most [q] tuples are
    pulled from the plan, however the run ends. *)
Theorem X6_quota_bounds_pulls (g : Globals) (rnd : nat -> Z) (estate : EState)
    (planstate : list TupleTableSlot) (use_parallel_mode : bool)
    (operation : CmdType) (sendTuples : bool) (direction : ScanDirection)
    (dest : DestReceiver) (q : Z) :
  0 < q < 2 ^ 64 ->
  (length (pulled (res_trace (ExecutePlan g rnd estate planstate
                                use_parallel_mode operation sendTuples q
                                direction dest)))
   <= Z.to_nat q)%nat.
Proof.
  intros Hq. rewrite ExecutePlan_pulled.
  pose proof (loop_quota_bound g rnd (es_junkFilter estate) operation dest
                sendTuples q planstate 0 (es_processed estate) 1 []) as Hb.
  rewrite Z.sub_0_r in Hb. apply Hb; lia.
Qed.

(** X7: a quota only cuts the run short: the tuples pulled and the tuples
    sent under a quota [q] between 1 and 2^64 - 1 are the first of those
    pulled and sent by the same run without quota. *)
Theorem X7_quota_only_truncates (g : Globals) (rnd : nat -> Z)
    (estate : EState) (planstate : list TupleTableSlot)
    (use_parallel_mode : bool) (operation : CmdType) (sendTuples : bool)
    (direction : ScanDirection) (dest : DestReceiver) (q : Z) :
  0 < q < 2 ^ 64 ->
  let rq := ExecutePlan g rnd estate planstate use_parallel_mode operation
              sendTuples q direction dest in
  let r0 := ExecutePlan g rnd estate planstate use_parallel_mode operation
              sendTuples 0 direction dest in
  sent (res_trace rq) `prefix_of` sent (res_trace r0)
  /\ pulled (res_trace rq) `prefix_of` pulled (res_trace r0).
Proof.
  intros Hq rq r0. subst rq r0.
  rewrite !ExecutePlan_sent, !ExecutePlan_pulled.
  apply loop_quota_truncates; lia.
Qed.

(** X8: in a SELECT, the monitored tuple sent in place [k] is the tuple
    pulled in place [k] rewritten with draw number 1 + m of rand(), m being
    the number of monitored tuples before it: one draw per monitored tuple,
    none for the others. *)
Theorem X8_draw_of_a_monitored_tuple (g : Globals) (rnd : nat -> Z)
    (estate : EState) (planstate : list TupleTableSlot)
    (use_parallel_mode sendTuples : bool) (numberTuples : Z)
    (direction : ScanDirection) (dest : DestReceiver) (k : nat)
    (slot0 out : TupleTableSlot) :
  planstate !! k = Some slot0 ->
  monitored g (filter_junk (es_junkFilter estate) slot0) = true ->
  sent (res_trace (ExecutePlan g rnd estate planstate use_parallel_mode
                     CMD_SELECT sendTuples numberTuples direction dest))
    !! k = Some out ->
  tamper g (rnd (S (monitored_before g (es_junkFilter estate) k planstate)))
         (filter_junk (es_junkFilter estate) slot0)
  = inr out.
Proof.
  intros Hk Hmon Hout. rewrite ExecutePlan_sent in Hout.
  now apply (loop_draw_index g rnd (es_junkFilter estate) CMD_SELECT dest
               sendTuples numberTuples planstate 0 (es_processed estate) 1 []
               k slot0 out).
Qed.

(** X9: the value of rand() thrown away on line 81 has no effect: two
    generators that agree from their second value on give the same run. *)
Theorem X9_first_draw_is_unused (g : Globals) (rnd rnd' : nat -> Z)
    (estate : EState) (planstate : list TupleTableSlot)
    (use_parallel_mode : bool) (operation : CmdType) (sendTuples : bool)
    (numberTuples : Z) (direction : ScanDirection) (dest : DestReceiver) :
  (forall i, rnd (S i) = rnd' (S i)) ->
  ExecutePlan g rnd estate planstate use_parallel_mode operation sendTuples
    numberTuples direction dest
  = ExecutePlan g rnd' estate planstate use_parallel_mode operation sendTuples
      numberTuples direction dest.
Proof.
  intros Hext. unfold ExecutePlan.
  rewrite (loop_draws_from g rnd rnd'); [reflexivity|].
  intros [|i] Hi; [lia | apply Hext].
Qed.

(** X10: the tuple sent in place [k] differs from the tuple pulled in place
    [k] (after the junk filter) in at most the datum of the monitored
    column: same table Oid, same null flags, same number of columns, same
    datum in every other column. *)
Theorem X10_one_datum_is_touched (g : Globals) (rnd : nat -> Z)
    (estate : EState) (planstate : list TupleTableSlot)
    (use_parallel_mode : bool) (operation : CmdType) (sendTuples : bool)
    (numberTuples : Z) (direction : ScanDirection) (dest : DestReceiver)
    (k : nat) (slot0 out : TupleTableSlot) :
  planstate !! k = Some slot0 ->
  sent (res_trace (ExecutePlan g rnd estate planstate use_parallel_mode
                     operation sendTuples numberTuples direction dest))
    !! k = Some out ->
  let inp := filter_junk (es_junkFilter estate) slot0 in
  tts_tableOid out = tts_tableOid inp
  /\ tts_isnull out = tts_isnull inp
  /\ length (tts_values out) = length (tts_values inp)
  /\ forall j : nat, Z.of_nat j <> col_no g - 1 ->
                     tts_values out !! j = tts_values inp !! j.
Proof.
  intros Hk Hout inp. subst inp. rewrite ExecutePlan_sent in Hout.
  apply loop_sent_lookup in Hout as (slot0' & Hk' & Hfwd).
  rewrite Hk in Hk'. injection Hk' as <-.
  unfold forwarded_as in Hfwd.
  destruct (CmdType_eqb operation CMD_SELECT && monitored g _).
  - destruct Hfwd as [i Ht]. now apply tamper_frame in Ht.
  - now subst out.
Qed.

(** X11: with [col_no] positive (and a plan node and a receiver that
    return), [ExecutePlan] ends otherwise than by returning only in a
    SELECT, at a monitored tuple that has fewer than [col_no] columns, and
    then with the server error of level ERROR that [slot_getattr] raises.
    That tuple is the last one pulled; the plan node is not shut down and
    parallel mode is not left. *)
Theorem X11_failure_only_at_unreadable_column (g : Globals) (rnd : nat -> Z)
    (estate : EState) (planstate : list TupleTableSlot)
    (use_parallel_mode : bool) (operation : CmdType) (sendTuples : bool)
    (numberTuples : Z) (direction : ScanDirection) (dest : DestReceiver) :
  0 < col_no g ->
  let r := ExecutePlan g rnd estate planstate use_parallel_mode operation
             sendTuples numberTuples direction dest in
  res_outcome r <> Returned ->
  operation = CMD_SELECT
  /\ (exists slot0,
        last (pulled (res_trace r)) = Some slot0
        /\ monitored g (filter_junk (es_junkFilter estate) slot0) = true
        /\ readable g (filter_junk (es_junkFilter estate) slot0) = false)
  /\ shutdowns (res_trace r) = 0%nat
  /\ calls is_exit_parallel (res_trace r) = 0%nat
  /\ res_outcome r = Raised ERROR.
Proof.
  intros Hcol r Hne. subst r.
  rewrite ExecutePlan_outcome in Hne |- *.
  pose proof (loop_fails_on_unreadable g rnd (es_junkFilter estate) operation
                dest sendTuples numberTuples planstate 0 (es_processed estate)
                1 [] Hne) as (Hop & Hslot & He & Ho).
  assert (Herr : lr_outcome
                   (ExecutePlan_loop g rnd (es_junkFilter estate) operation
                      sendTuples numberTuples dest planstate 0
                      (es_processed estate) 1 [])
                 = Raised ERROR)
    by (destruct Ho as [[Ho _] | [_ Ho]]; [exact Ho | lia]).
  clear Ho.
  rewrite ExecutePlan_pulled.
  repeat split; try assumption.
  - rewrite ExecutePlan_trace.
    destruct (lr_outcome _) eqn:Hout; try (now contradiction Hne);
      rewrite app_nil_r, shutdowns_app, shutdowns_loop, He;
      now destruct (if negb (numberTuples =? 0) then false
                    else use_parallel_mode).
  - rewrite ExecutePlan_trace.
    destruct (lr_outcome _) eqn:Hout; try (now contradiction Hne);
      rewrite app_nil_r, calls_app;
      rewrite (calls_none is_exit_parallel (lr_trace _))
        by (eapply Forall_impl; [apply loop_only_loop_calls|];
            intros e; now destruct e);
      now destruct (if negb (numberTuples =? 0) then false
                    else use_parallel_mode).
Qed.

(** X12: parallel mode is entered exactly when it was asked for and no
    quota was given, and it is left once exactly when it was entered and
    [ExecutePlan] returns. *)
Theorem X12_parallel_mode_bracket (g : Globals) (rnd : nat -> Z)
    (estate : EState) (planstate : list TupleTableSlot)
    (use_parallel_mode : bool) (operation : CmdType) (sendTuples : bool)
    (numberTuples : Z) (direction : ScanDirection) (dest : DestReceiver) :
  let r := ExecutePlan g rnd estate planstate use_parallel_mode operation
             sendTuples numberTuples direction dest in
  let entered := use_parallel_mode && (numberTuples =? 0) in
  calls is_enter_parallel (res_trace r) = (if entered then 1 else 0)%nat
  /\ calls is_exit_parallel (res_trace r)
     = match res_outcome r with
       | Returned => if entered then 1 else 0
       | _ => 0
       end%nat.
Proof.
  intros r entered. subst r entered.
  rewrite ExecutePlan_outcome, ExecutePlan_trace, !calls_app.
  rewrite (calls_none is_enter_parallel (lr_trace _))
    by (eapply Forall_impl; [apply loop_only_loop_calls|];
        intros e; now destruct e).
  rewrite (calls_none is_exit_parallel (lr_trace _))
    by (eapply Forall_impl; [apply loop_only_loop_calls|];
        intros e; now destruct e).
  destruct (numberTuples =? 0), use_parallel_mode, (lr_outcome _),
    (Z.land (es_top_eflags estate) EXEC_FLAG_BACKWARD =? 0);
    now cbn.
Qed.

(** What the hook does once its Assert has passed: the calls of
    [ExecutePlan] (none under "no movement") inside its own. *)
Lemma sentinel_ExecutorRun_shape (g : Globals) (rnd : nat -> Z)
    (queryDesc : QueryDesc) (direction : ScanDirection) (count : Z)
    (execute_once : bool) :
  USE_ASSERT_CHECKING = false
  \/ Z.land (es_top_eflags (estate queryDesc)) EXEC_FLAG_EXPLAIN_ONLY = 0 ->
  let sendTuples :=
    CmdType_eqb (operation queryDesc) CMD_SELECT
    || hasReturning (plannedstmt queryDesc) in
  let start := if totaltime queryDesc then [EvInstrStartNode] else [] in
  let startup :=
    if sendTuples then [EvRStartup (operation queryDesc)] else [] in
  exists r0 : Result,
    (r0 = ExecutePlan g rnd (with_processed (estate queryDesc) 0)
            (planstate queryDesc) (parallelModeNeeded (plannedstmt queryDesc))
            (operation queryDesc) sendTuples count direction (dest queryDesc)
     \/ r0 = mkResult [] (with_processed (estate queryDesc) 0) Returned)
    /\ Forall (fun e => is_loop_call e || is_enter_parallel e
                        || is_exit_parallel e = true) (res_trace r0)
    /\ sentinel_ExecutorRun g rnd queryDesc direction count execute_once
       = match res_outcome r0 with
         | Returned =>
             mkResult
               (start ++ startup ++ res_trace r0
                  ++ (if sendTuples then [EvRShutdown] else [])
                  ++ (if totaltime queryDesc
                      then [EvInstrStopNode (es_processed (res_estate r0))]
                      else []))
               (res_estate r0) Returned
         | o => mkResult (start ++ startup ++ res_trace r0) (res_estate r0) o
         end.
Proof.
  intros Hpass sendTuples start startup.
  unfold sentinel_ExecutorRun.
  replace (USE_ASSERT_CHECKING && _) with false
    by (destruct Hpass as [-> | Hflag]; [reflexivity|];
        apply Z.eqb_eq in Hflag; rewrite Hflag; now rewrite andb_false_r).
  fold sendTuples.
  destruct (negb (ScanDirectionIsNoMovement direction)).
  - eexists. split; [left; reflexivity|]. split; [apply ExecutePlan_calls|].
    reflexivity.
  - eexists. split; [right; reflexivity|]. split; [constructor|]. reflexivity.
Qed.

Lemma sent_no_receive t :
  Forall (fun e => sent_of e = None) t -> sent t = [].
Proof.
  unfold sent. induction 1 as [|e t He _ IH]; [reflexivity|].
  cbn. now rewrite He.
Qed.

(** X13: a SELECT run by the hook ends with [es_processed] equal to the
    number of tuples handed to the receiver (modulo 2^64), whatever the
    counter held before and however the run ends. *)
Theorem X13_select_reports_tuples_sent (g : Globals) (rnd : nat -> Z)
    (queryDesc : QueryDesc) (direction : ScanDirection) (count : Z)
    (execute_once : bool) :
  USE_ASSERT_CHECKING = false
  \/ Z.land (es_top_eflags (estate queryDesc)) EXEC_FLAG_EXPLAIN_ONLY = 0 ->
  operation queryDesc = CMD_SELECT ->
  let r := sentinel_ExecutorRun g rnd queryDesc direction count execute_once in
  es_processed (res_estate r)
  = uint64 (Z.of_nat (length (sent (res_trace r)))).
Proof.
  intros Hpass Hop r. subst r.
  destruct (sentinel_ExecutorRun_shape g rnd queryDesc direction count
              execute_once Hpass) as (r0 & Hr0 & _ & ->).
  rewrite Hop in *. cbn [CmdType_eqb orb] in *.
  assert (H0 : es_processed (res_estate r0)
               = uint64 (Z.of_nat (length (sent (res_trace r0))))).
  { destruct Hr0 as [-> | ->]; [|reflexivity].
    rewrite ExecutePlan_processed, ExecutePlan_sent.
    rewrite loop_processed; [reflexivity | reflexivity | cbn; lia]. }
  assert (Hs : forall post,
             Forall (fun e => sent_of e = None) post ->
             sent ((if totaltime queryDesc then [EvInstrStartNode] else [])
                   ++ [EvRStartup CMD_SELECT] ++ res_trace r0 ++ post)
             = sent (res_trace r0)).
  { intros post Hpost. rewrite !sent_app.
    rewrite (sent_no_receive post Hpost), app_nil_r.
    now destruct (totaltime queryDesc). }
  destruct (res_outcome r0); cbn [res_trace res_estate].
  - rewrite (Hs ([EvRShutdown] ++ _)); [exact H0|].
    destruct (totaltime queryDesc); now repeat constructor.
  - rewrite <- (app_nil_r (res_trace r0)). rewrite Hs; [exact H0|constructor].
  - rewrite <- (app_nil_r (res_trace r0)). rewrite Hs; [exact H0|constructor].
  - rewrite <- (app_nil_r (res_trace r0)). rewrite Hs; [exact H0|constructor].
Qed.

(** X14: when the hook returns from an operation that emits tuples, its
    trace is: InstrStartNode (with instrumentation), rStartup, the calls of
    [ExecutePlan], rShutdown, InstrStopNode with the final [es_processed]
    (with instrumentation); none of the calls in between is to the
    receiver's start-up or shutdown or to the instrumentation. *)
Theorem X14_receiver_brackets_the_run (g : Globals) (rnd : nat -> Z)
    (queryDesc : QueryDesc) (direction : ScanDirection) (count : Z)
    (execute_once : bool) :
  USE_ASSERT_CHECKING = false
  \/ Z.land (es_top_eflags (estate queryDesc)) EXEC_FLAG_EXPLAIN_ONLY = 0 ->
  CmdType_eqb (operation queryDesc) CMD_SELECT
  || hasReturning (plannedstmt queryDesc) = true ->
  let r := sentinel_ExecutorRun g rnd queryDesc direction count execute_once in
  res_outcome r = Returned ->
  exists mid : list event,
    res_trace r
    = (if totaltime queryDesc then [EvInstrStartNode] else [])
      ++ [EvRStartup (operation queryDesc)] ++ mid ++ [EvRShutdown]
      ++ (if totaltime queryDesc
          then [EvInstrStopNode (es_processed (res_estate r))] else [])
    /\ Forall (fun e => is_rStartup e || is_rShutdown e || is_instr e = false)
         mid.
Proof.
  intros Hpass Hsend r. subst r.
  destruct (sentinel_ExecutorRun_shape g rnd queryDesc direction count
              execute_once Hpass) as (r0 & _ & Hcalls & ->).
  rewrite Hsend.
  destruct (res_outcome r0); cbn [res_outcome]; try discriminate.
  intros _. exists (res_trace r0). split; [reflexivity|].
  eapply Forall_impl; [exact Hcalls|].
  intros e; now destruct e.
Qed.

(** X15: for an operation that emits no tuples (not a SELECT and without
    RETURNING) the hook makes no call to the receiver at all: no start-up,
    no tuple, no shutdown. *)
Theorem X15_no_receiver_without_tuples (g : Globals) (rnd : nat -> Z)
    (queryDesc : QueryDesc) (direction : ScanDirection) (count : Z)
    (execute_once : bool) :
  CmdType_eqb (operation queryDesc) CMD_SELECT
  || hasReturning (plannedstmt queryDesc) = false ->
  let r := sentinel_ExecutorRun g rnd queryDesc direction count execute_once in
  calls is_rStartup (res_trace r) = 0%nat
  /\ sent (res_trace r) = []
  /\ calls is_rShutdown (res_trace r) = 0%nat.
Proof.
  intros Hsend r. subst r.
  destruct (USE_ASSERT_CHECKING
            && negb (Z.land (es_top_eflags (estate queryDesc))
                       EXEC_FLAG_EXPLAIN_ONLY =? 0)) eqn:Hassert.
  - unfold sentinel_ExecutorRun. rewrite Hassert. now cbn.
  - assert (Hpass : USE_ASSERT_CHECKING = false
                    \/ Z.land (es_top_eflags (estate queryDesc))
                         EXEC_FLAG_EXPLAIN_ONLY = 0).
    { apply andb_false_iff in Hassert as [Ha | Hf]; [now left|right].
      apply negb_false_iff in Hf. now apply Z.eqb_eq. }
    destruct (sentinel_ExecutorRun_shape g rnd queryDesc direction count
                execute_once Hpass) as (r0 & Hr0 & Hcalls & ->).
    rewrite Hsend in *.
    assert (Hsent : sent (res_trace r0) = []).
    { destruct Hr0 as [-> | ->]; [|reflexivity].
      rewrite ExecutePlan_sent. apply loop_nosend. }
    assert (Hup : calls is_rStartup (res_trace r0) = 0%nat)
      by (apply calls_none; eapply Forall_impl; [exact Hcalls|];
          intros e; now destruct e).
    assert (Hdown : calls is_rShutdown (res_trace r0) = 0%nat)
      by (apply calls_none; eapply Forall_impl; [exact Hcalls|];
          intros e; now destruct e).
    destruct (res_outcome r0), (totaltime queryDesc); cbn [res_trace];
      rewrite !calls_app, !sent_app, Hsent, Hup, Hdown; now cbn.
Qed.

(** X16: when the run does not return (the Assert fails, or [ExecutePlan]
    ends in an error), the hook has neither shut the receiver down nor
    stopped the instrumentation. *)
Theorem X16_error_skips_the_shutdown (g : Globals) (rnd : nat -> Z)
    (queryDesc : QueryDesc) (direction : ScanDirection) (count : Z)
    (execute_once : bool) :
  let r := sentinel_ExecutorRun g rnd queryDesc direction count execute_once in
  res_outcome r <> Returned ->
  calls is_rShutdown (res_trace r) = 0%nat
  /\ calls is_InstrStopNode (res_trace r) = 0%nat.
Proof.
  intros r. subst r.
  destruct (USE_ASSERT_CHECKING
            && negb (Z.land (es_top_eflags (estate queryDesc))
                       EXEC_FLAG_EXPLAIN_ONLY =? 0)) eqn:Hassert.
  - unfold sentinel_ExecutorRun. rewrite Hassert. now cbn.
  - assert (Hpass : USE_ASSERT_CHECKING = false
                    \/ Z.land (es_top_eflags (estate queryDesc))
                         EXEC_FLAG_EXPLAIN_ONLY = 0).
    { apply andb_false_iff in Hassert as [Ha | Hf]; [now left|right].
      apply negb_false_iff in Hf. now apply Z.eqb_eq. }
    destruct (sentinel_ExecutorRun_shape g rnd queryDesc direction count
                execute_once Hpass) as (r0 & _ & Hcalls & ->).
    assert (Hdown : calls is_rShutdown (res_trace r0) = 0%nat)
      by (apply calls_none; eapply Forall_impl; [exact Hcalls|];
          intros e; now destruct e).
    assert (Hstop : calls is_InstrStopNode (res_trace r0) = 0%nat)
      by (apply calls_none; eapply Forall_impl; [exact Hcalls|];
          intros e; now destruct e).
    destruct (res_outcome r0); cbn [res_outcome res_trace]; intros Hne;
      try (now contradiction Hne);
      rewrite !calls_app, Hdown, Hstop;
      now destruct (totaltime queryDesc), (CmdType_eqb _ _ || _).
Qed.

End Extras.

(** ** The further properties on sample runs *)

(** Table 17 and column 2 configured on a server with a 32-bit int. *)
Lemma X1_witness :
  let g := fst (_PG_init (host := pg_release) (Some 17) (Some 2)
                  initial_globals None) in
  0 <= relation_oid g <= 2147483647
  /\ 0 <= col_no g <= 2147483647
  /\ forall slot, monitored g slot = true <-> tts_tableOid slot = relation_oid g.
Proof.
  apply (X1_settings_within_bounds (host := pg_release) (Some 17) (Some 2)
           initial_globals None).
  cbn. lia.
Defined.

(** The sample plan run as an INSERT. *)
Lemma X2_witness :
  let r := ExecutePlan (host := pg_release) g17 rnd_from6 plain_estate
             sample_rows false CMD_INSERT true 0 ForwardScanDirection
             accept_all in
  res_outcome r = Returned
  /\ es_processed (res_estate r) = es_processed plain_estate
  /\ sent (res_trace r) `prefix_of` map (filter_junk None) sample_rows.
Proof.
  apply (X2_other_operations_pass_through (host := pg_release) g17 rnd_from6
           plain_estate sample_rows false CMD_INSERT true 0
           ForwardScanDirection accept_all).
  discriminate.
Defined.

(** The sample plan run as a SELECT without a receiver. *)
Lemma X3_witness :
  let r := ExecutePlan (host := pg_release) g17 rnd_from6 plain_estate
             sample_rows false CMD_SELECT false 0 ForwardScanDirection
             accept_all in
  es_processed (res_estate r)
  = uint64 (es_processed plain_estate
            + Z.of_nat (length (pulled (res_trace r)))).
Proof.
  apply (X3_select_counts_pulled (host := pg_release) g17 rnd_from6
           plain_estate sample_rows false false 0 ForwardScanDirection
           accept_all).
  - cbn. lia.
  - reflexivity.
Defined.

(** The receiver declines the second tuple of the sample plan. *)
Lemma X5_witness :
  let r := ExecutePlan (host := pg_release) g17 rnd_from6 plain_estate
             sample_rows false CMD_SELECT true 0 ForwardScanDirection
             accept_one in
  length (sent (res_trace r)) = 2%nat
  /\ length (pulled (res_trace r)) = 2%nat
  /\ exhausted (res_trace r) = false
  /\ res_outcome r = Returned
  /\ shutdowns (res_trace r)
     = (if (Z.land (es_top_eflags plain_estate) 4 =? 0)%Z then 1 else 0)%nat.
Proof.
  apply (X5_decline_ends_the_run (host := pg_release) g17 rnd_from6
           plain_estate sample_rows false CMD_SELECT true 0
           ForwardScanDirection accept_one 1).
  reflexivity.
Defined.

(** A quota of 2 on the sample plan. *)
Lemma X6_witness :
  (length (pulled (res_trace (ExecutePlan (host := pg_release) g17 rnd_from6
                                plain_estate sample_rows false CMD_SELECT true
                                2 ForwardScanDirection accept_all)))
   <= Z.to_nat 2)%nat.
Proof.
  apply (X6_quota_bounds_pulls (host := pg_release) g17 rnd_from6 plain_estate
           sample_rows false CMD_SELECT true ForwardScanDirection accept_all 2).
  lia.
Defined.

(** A quota of 2 on the sample plan against no quota. *)
Lemma X7_witness :
  let rq := ExecutePlan (host := pg_release) g17 rnd_from6 plain_estate
              sample_rows false CMD_SELECT true 2 ForwardScanDirection
              accept_all in
  let r0 := ExecutePlan (host := pg_release) g17 rnd_from6 plain_estate
              sample_rows false CMD_SELECT true 0 ForwardScanDirection
              accept_all in
  sent (res_trace rq) `prefix_of` sent (res_trace r0)
  /\ pulled (res_trace rq) `prefix_of` pulled (res_trace r0).
Proof.
  apply (X7_quota_only_truncates (host := pg_release) g17 rnd_from6
           plain_estate sample_rows false CMD_SELECT true ForwardScanDirection
           accept_all 2).
  lia.
Defined.

(** The third tuple of the sample plan is the second monitored one: it is
    rewritten with the draw numbered 2. *)
Lemma X8_witness :
  tamper (host := pg_release) g17
    (rnd_from6 (S (monitored_before g17 None 2 sample_rows)))
    (filter_junk None (row 17 2 200))
  = inr (row 17 2 203).
Proof.
  apply (X8_draw_of_a_monitored_tuple (host := pg_release) g17 rnd_from6
           plain_estate sample_rows false true 0 ForwardScanDirection
           accept_all 2 (row 17 2 200) (row 17 2 203)).
  - reflexivity.
  - reflexivity.
  - reflexivity.
Defined.

(** Two generators that differ in their first value only. *)
Lemma X9_witness :
  ExecutePlan (host := pg_release) g17 rnd_from6 plain_estate sample_rows
    false CMD_SELECT true 0 ForwardScanDirection accept_all
  = ExecutePlan (host := pg_release) g17
      (fun i => match i with O => 99 | S _ => rnd_from6 i end) plain_estate
      sample_rows false CMD_SELECT true 0 ForwardScanDirection accept_all.
Proof.
  apply (X9_first_draw_is_unused (host := pg_release) g17 rnd_from6
           (fun i => match i with O => 99 | S _ => rnd_from6 i end)
           plain_estate sample_rows false CMD_SELECT true 0
           ForwardScanDirection accept_all).
  intros i. reflexivity.
Defined.

(** The first tuple of the sample plan, sent with 102 for 100. *)
Lemma X10_witness :
  let inp := filter_junk (es_junkFilter plain_estate) (row 17 1 100) in
  tts_tableOid (row 17 1 102) = tts_tableOid inp
  /\ tts_isnull (row 17 1 102) = tts_isnull inp
  /\ length (tts_values (row 17 1 102)) = length (tts_values inp)
  /\ forall j : nat, Z.of_nat j <> col_no g17 - 1 ->
                     tts_values (row 17 1 102) !! j = tts_values inp !! j.
Proof.
  apply (X10_one_datum_is_touched (host := pg_release) g17 rnd_from6
           plain_estate sample_rows false CMD_SELECT true 0
           ForwardScanDirection accept_all 0 (row 17 1 100) (row 17 1 102)).
  - reflexivity.
  - reflexivity.
Defined.

(** Column 5 monitored in two-column tuples: the first tuple of the sample
    plan stops the run with an error. *)
Lemma X11_witness :
  let r := ExecutePlan (host := pg_release) g17_col5 rnd_from6 plain_estate
             sample_rows false CMD_SELECT true 0 ForwardScanDirection
             accept_all in
  CMD_SELECT = CMD_SELECT
  /\ (exists slot0,
        last (pulled (res_trace r)) = Some slot0
        /\ monitored g17_col5 (filter_junk (es_junkFilter plain_estate) slot0)
           = true
        /\ readable g17_col5 (filter_junk (es_junkFilter plain_estate) slot0)
           = false)
  /\ shutdowns (res_trace r) = 0%nat
  /\ calls is_exit_parallel (res_trace r) = 0%nat
  /\ res_outcome r = Raised 21.
Proof.
  apply (X11_failure_only_at_unreadable_column (host := pg_release) g17_col5
           rnd_from6 plain_estate sample_rows false CMD_SELECT true 0
           ForwardScanDirection accept_all).
  - reflexivity.
  - vm_compute. discriminate.
Defined.

(** The sample SELECT run through the hook. *)
Lemma X13_witness :
  let r := sentinel_ExecutorRun (host := pg_release) g17 rnd_from6
             (select_desc 0 sample_rows) ForwardScanDirection 0 true in
  es_processed (res_estate r)
  = uint64 (Z.of_nat (length (sent (res_trace r)))).
Proof.
  apply (X13_select_reports_tuples_sent (host := pg_release) g17 rnd_from6
           (select_desc 0 sample_rows) ForwardScanDirection 0 true).
  - right. reflexivity.
  - reflexivity.
Defined.

(** The sample SELECT run through the hook, with instrumentation. *)
Lemma X14_witness :
  let r := sentinel_ExecutorRun (host := pg_release) g17 rnd_from6
             (select_desc 0 sample_rows) ForwardScanDirection 0 true in
  exists mid : list event,
    res_trace r
    = [EvInstrStartNode] ++ [EvRStartup CMD_SELECT] ++ mid ++ [EvRShutdown]
      ++ [EvInstrStopNode (es_processed (res_estate r))]
    /\ Forall (fun e => is_rStartup e || is_rShutdown e || is_instr e = false)
         mid.
Proof.
  apply (X14_receiver_brackets_the_run (host := pg_release) g17 rnd_from6
           (select_desc 0 sample_rows) ForwardScanDirection 0 true).
  - right. reflexivity.
  - reflexivity.
  - reflexivity.
Defined.

(** The sample plan run through the hook as an INSERT without RETURNING. *)
Lemma X15_witness :
  let r := sentinel_ExecutorRun (host := pg_release) g17 rnd_from6
             (insert_desc sample_rows) ForwardScanDirection 0 true in
  calls is_rStartup (res_trace r) = 0%nat
  /\ sent (res_trace r) = []
  /\ calls is_rShutdown (res_trace r) = 0%nat.
Proof.
  apply (X15_no_receiver_without_tuples (host := pg_release) g17 rnd_from6
           (insert_desc sample_rows) ForwardScanDirection 0 true).
  reflexivity.
Defined.

(** Column 5 monitored in two-column tuples, through the hook. *)
Lemma X16_witness :
  let r := sentinel_ExecutorRun (host := pg_release) g17_col5 rnd_from6
             (select_desc 0 sample_rows) ForwardScanDirection 0 true in
  calls is_rShutdown (res_trace r) = 0%nat
  /\ calls is_InstrStopNode (res_trace r) = 0%nat.
Proof.
  apply (X16_error_skips_the_shutdown (host := pg_release) g17_col5 rnd_from6
           (select_desc 0 sample_rows) ForwardScanDirection 0 true).
  vm_compute. discriminate.
Defined.
